(** * GARNET orchestration script (scripts/garnet.py): a shallow embedding

    The script reads a configuration file, then runs up to five external
    tools in sequence, skipping a tool when the file it would produce is
    already there.  It is Python 2: values are strings or [None], commands
    are strings handed to [os.system], and the only shared state is the file
    system, the standard output and the process exit.

    The embedding keeps that shape: Python values are [pyval], every function
    of the script is a computation in a state-and-exception monad [M] over a
    [World] (file system, log of the commands handed to [os.system], lines
    printed), and the configuration is the dictionary of dictionaries that
    [ConfigParser] holds after [read]. *)

From stdpp Require Import gmap strings list.
From Stdlib Require Import Ascii String ZArith Lia.

Local Open Scope Z_scope.
Local Open Scope string_scope.

(** ** Python values and exceptions *)

(** The values the script handles: [None] and (byte) strings. *)
Inductive pyval : Type :=
| PNone
| PStr (s : string).

(** The exceptions the script can raise, all of them uncaught. *)
Inductive exn : Type :=
| NoSectionError (section : string)
| NoOptionError (option section : string)
| TypeError
| AttributeError
| UnboundLocalError (name : string)
| InterpolationError (option section : string).

(** How a computation ends: with a value, with [sys.exit()] (the script only
    ever calls it without an argument), or with an uncaught exception. *)
Inductive Res (A : Type) : Type :=
| Ret (a : A)
| Exit
| Raise (e : exn).
Arguments Ret {A} a.
Arguments Exit {A}.
Arguments Raise {A} e.

(** The exit status of the interpreter: falling off the end of [main] and
    [sys.exit()] without an argument both give 0, an uncaught exception
    gives 1. *)
Definition exit_status {A} (r : Res A) : Z :=
  match r with
  | Ret _ => 0
  | Exit => 0
  | Raise _ => 1
  end.

Definition is_None (v : pyval) : bool :=
  match v with PNone => true | PStr _ => false end.

(** [v == s] for a string literal [s]; [None] equals no string. *)
Definition py_eq_str (v : pyval) (s : string) : bool :=
  match v with PNone => false | PStr t => String.eqb t s end.

(** [v is not None and v != ''], the test the script applies to most
    configuration values. *)
Definition nonblank (v : pyval) : bool :=
  negb (is_None v) && negb (py_eq_str v "").

(** ** Strings: [str.lower], [os.path], [re.sub] *)

Definition nl : string := String "010"%char "".

Definition ascii_lower (c : ascii) : ascii :=
  let n := nat_of_ascii c in
  if (Nat.leb 65 n && Nat.leb n 90)%bool then ascii_of_nat (n + 32) else c.

Fixpoint lower (s : string) : string :=
  match s with
  | EmptyString => EmptyString
  | String c r => String (ascii_lower c) (lower r)
  end.

(** [s.rfind(c)]: the index of the last occurrence, or -1. *)
Fixpoint rfind_from (c : ascii) (s : string) (i last : Z) : Z :=
  match s with
  | EmptyString => last
  | String d r => rfind_from c r (i + 1) (if Ascii.eqb d c then i else last)
  end.

Definition rfind (c : ascii) (s : string) : Z := rfind_from c s 0 (-1).

(** The slices [p[i:]] and [p[:i]] for [0 <= i]. *)
Definition slice_from (i : Z) (p : string) : string :=
  substring (Z.to_nat i) (String.length p - Z.to_nat i) p.

Definition slice_to (i : Z) (p : string) : string :=
  substring 0 (Z.to_nat i) p.

(** [posixpath.basename]: [i = p.rfind('/') + 1; return p[i:]]. *)
Definition basename (p : string) : string :=
  slice_from (rfind "/" p + 1) p.

Fixpoint all_dots (s : string) : bool :=
  match s with
  | EmptyString => true
  | String c r => Ascii.eqb c "." && all_dots r
  end.

(** [posixpath.splitext(p)[0]], after [genericpath._splitext]: the extension
    starts at the last dot when that dot comes after the last slash and some
    character of the file name before it is not a dot. *)
Definition splitext_root (p : string) : string :=
  let sepIndex := rfind "/" p in
  let dotIndex := rfind "." p in
  if (sepIndex <? dotIndex)%Z
  then
    if all_dots (substring (Z.to_nat (sepIndex + 1))
                           (Z.to_nat (dotIndex - (sepIndex + 1))) p)
    then p
    else slice_to dotIndex p
  else p.

Definition startswith_slash (b : string) : bool :=
  match b with
  | String c _ => Ascii.eqb c "/"
  | EmptyString => false
  end.

Fixpoint endswith_slash (a : string) : bool :=
  match a with
  | EmptyString => false
  | String c EmptyString => Ascii.eqb c "/"
  | String _ r => endswith_slash r
  end.

(** [posixpath.join(a, b)]. *)
Definition os_path_join (a b : string) : string :=
  if startswith_slash b then b
  else if String.eqb a "" || endswith_slash a then a +:+ b
  else a +:+ "/" +:+ b.

(** [re.sub(pattern, repl, s)] for the patterns of the script, which are
    made of literal letters and of [.], the wildcard that matches every
    character but a newline; [repl] holds no backslash.  The pattern is not
    empty.  Every match is replaced, scanning from the left and resuming
    after the end of each match (Python's default [count=0]). *)
Fixpoint match_here (pat s : string) : bool :=
  match pat, s with
  | EmptyString, _ => true
  | String _ _, EmptyString => false
  | String p pat', String c s' =>
      (if Ascii.eqb p "." then negb (Ascii.eqb c "010") else Ascii.eqb p c)
      && match_here pat' s'
  end.

(** [skip] counts the characters of the current match still to drop. *)
Fixpoint sub_from (pat repl : string) (skip : nat) (s : string) : string :=
  match s with
  | EmptyString => EmptyString
  | String c s' =>
      match skip with
      | S k => sub_from pat repl k s'
      | O =>
          if match_here pat s
          then repl +:+ sub_from pat repl (Nat.pred (String.length pat)) s'
          else String c (sub_from pat repl O s')
      end
  end.

Definition re_sub (pat repl s : string) : string := sub_from pat repl O s.

(** ** The configuration object

    What [ConfigParser()] holds after [config.read(args[0])]: the sections
    with their options, and the options of the [DEFAULT] section, which every
    section inherits.  Option names are stored lower-cased ([optionxform]),
    values are stored as written (the parser was built without
    [allow_no_value], so a value is always a string; a line [key=] gives the
    empty string).

    [get] is called without [raw], so a value that holds [%(] goes through
    [_interpolate], which expands the references [%(name)s] with Python's
    string formatting and raises when it cannot.  That formatting is not
    modelled: [_interpolate] stands for its outcome on such a value, the
    expanded string or the exception raised. *)
Record ConfigParser : Type := {
  _sections : gmap string (gmap string string);
  _defaults : gmap string string;
  _interpolate : string -> string -> string -> exn + string
}.

(** [sub in s] *)
Fixpoint contains (sub s : string) : bool :=
  match s with
  | EmptyString => String.eqb sub ""
  | String _ s' => String.prefix sub s || contains sub s'
  end.

(** The end of [get]: a value without [%(] is returned as it is. *)
Definition interpolated (config : ConfigParser) (section option value : string) : Res pyval :=
  if contains "%(" value
  then match _interpolate config section option value with
       | inr expanded => Ret (PStr expanded)
       | inl e => Raise e
       end
  else Ret (PStr value).

(** [config.get(section, option)]: a missing section or option is an
    exception, never [None]. *)
Definition config_get (config : ConfigParser) (section option : string) : Res pyval :=
  match _sections config !! section with
  | None => Raise (NoSectionError section)
  | Some sectiondict =>
      match sectiondict !! lower option with
      | Some value => interpolated config section (lower option) value
      | None =>
          match _defaults config !! lower option with
          | Some value => interpolated config section (lower option) value
          | None => Raise (NoOptionError (lower option) section)
          end
      end
  end.

(** The options [OptionParser] hands to [main]: [--outdir] (default [None])
    and [--allGenes]; [--utilpath] only changes [sys.path]. *)
Record Options : Type := {
  opt_outdir : pyval;
  opt_allgenes : bool
}.

(** ** The world and the monad *)

(** The file system as [os.path.exists] sees it, the commands handed to
    [os.system] so far (oldest first) and the lines printed so far. *)
Record World : Type := {
  fs : string -> bool;
  calls : list string;
  stdout : list string
}.

Definition M (A : Type) : Type := World -> Res A * World.

Definition ret {A} (a : A) : M A := fun w => (Ret a, w).

Definition bind {A B} (m : M A) (k : A -> M B) : M B :=
  fun w =>
    match m w with
    | (Ret a, w') => k a w'
    | (Exit, w') => (Exit, w')
    | (Raise e, w') => (Raise e, w')
    end.

Definition raise {A} (e : exn) : M A := fun w => (Raise e, w).

(** [sys.exit()] *)
Definition sys_exit {A} : M A := fun w => (Exit, w).

Definition lift {A} (r : Res A) : M A := fun w => (r, w).

Declare Scope py_scope.
Delimit Scope py_scope with py.
Notation "x <- m ;; k" := (bind m (fun x => k))
  (at level 100, m at next level, right associativity) : py_scope.
Notation "'let*' p := m 'in' k" := (bind m (fun x => match x with p => k end))
  (at level 10, p pattern, m at level 100, k at level 200, only parsing) : py_scope.
Notation "m ;; k" := (bind m (fun _ => k))
  (at level 100, right associativity) : py_scope.
Local Open Scope py_scope.

Definition log_line (s : string) (w : World) : World :=
  {| fs := fs w; calls := calls w; stdout := stdout w ++ [s] |}.

(** [print s] *)
Definition print (s : string) : M unit := fun w => (Ret tt, log_line s w).

(** A string operand of [+]: adding [None] to a string is a [TypeError]. *)
Definition str_ (v : pyval) : M string :=
  match v with
  | PStr s => ret s
  | PNone => raise TypeError
  end.

(** A path handed to [os.path.basename]: [None] has no [rfind]. *)
Definition path_ (v : pyval) : M string :=
  match v with
  | PStr s => ret s
  | PNone => raise AttributeError
  end.

(** [os.path.exists(p)], for a path without a NUL byte (with one, Python 2
    raises [TypeError]; that case is left out). *)
Definition os_path_exists (p : string) : M bool := fun w => (Ret (fs w p), w).

(** Reading a local variable that may not have been assigned. *)
Definition local (name : string) (v : option pyval) : M pyval :=
  match v with
  | Some x => ret x
  | None => raise (UnboundLocalError name)
  end.

(** ** The script *)

Section Garnet.

(** [progdir=os.path.dirname(sys.argv[0])], the directory of the script. *)
Variable progdir : string.

(** The external world behind [os.system]: what a command returns and what
    it does to the file system.  The tools are opaque to the script. *)
Variable shell : string -> (string -> bool) -> Z * (string -> bool).

(** [os.system(cmd)], for a command without a NUL byte (with one, Python 2
    raises [TypeError]; that case is left out). *)
Definition os_system (cmd : string) : M Z :=
  fun w =>
    let (status, fs') := shell cmd (fs w) in
    (Ret status, {| fs := fs'; calls := calls w ++ [cmd]; stdout := stdout w |}).

Definition banner (title : string) : string :=
  nl +:+ "-----------------------------" +:+ title
     +:+ "------------------------------------------" +:+ nl.

(** *** Step 1: [mapGenesToRegions] *)

(** The command of line 61. *)
Definition map_cmd1 (genefile xreffile bedfile window outfile : string) : string :=
  "python " +:+ os_path_join progdir "map_peaks_to_known_genes.py"
  +:+ " --peaks-format=BED --utilpath=" +:+ os_path_join progdir "../src/"
  +:+ " --upstream-window=" +:+ window +:+ " --downstream-window=" +:+ window
  +:+ " --tss --map-output=" +:+ outfile +:+ " --symbol-xref=" +:+ xreffile
  +:+ " " +:+ genefile +:+ " " +:+ bedfile.

Definition mapGenesToRegions (genefile xreffile bedfile window outdir : pyval)
  : M (Z * pyval) :=
  outdir <- (if is_None outdir
             then b <- path_ bedfile ;;
                  w <- str_ window ;;
                  ret (splitext_root (basename b) +:+ "eventsWithin" +:+ w)
             else str_ outdir) ;;
  let outfile := outdir +:+ "/events_to_genes.xls" in
  let res := 0 in
  e <- os_path_exists outdir ;;
  (if negb e then os_system ("mkdir " +:+ outdir) ;; ret tt else ret tt) ;;
  w <- str_ window ;;
  x <- str_ xreffile ;;
  g <- str_ genefile ;;
  b <- str_ bedfile ;;
  let cmd := map_cmd1 g x b w outfile in
  e <- os_path_exists outfile ;;
  if negb e
  then
    print (banner "Gene-region mapping output") ;;
    print ("Running command:" +:+ nl +:+ cmd +:+ nl) ;;
    print ("Mapping genes from " +:+ g +:+ " to regions within " +:+ w
           +:+ " bp of events from " +:+ b +:+ " and putting results in " +:+ outfile) ;;
    res <- os_system cmd ;;
    ret (res, PStr outfile)
  else
    print ("File " +:+ outfile
           +:+ " already exists. If you would like to replace it, delete and re-run") ;;
    ret (res, PStr outfile).

(** *** Step 2: [motifScanning] *)

Definition scan_cmd (tamo_file fastafile numthreads genome closest_gene_file motif_binding_out : string) : string :=
  "python " +:+ os_path_join progdir "motif_fsa_scores.py"
  +:+ " --motif=" +:+ tamo_file +:+ " --genome=" +:+ genome
  +:+ " --outfile=" +:+ motif_binding_out +:+ " --genefile=" +:+ closest_gene_file
  +:+ " --scale=10 --threads=" +:+ numthreads +:+ " " +:+ fastafile.

(** [re.sub] on a value: [None] is not a string. *)
Definition re_sub_ (pat repl : string) (v : pyval) : M string :=
  match v with
  | PStr s => ret (re_sub pat repl s)
  | PNone => raise TypeError
  end.

Definition motifScanning (tamo_file fastafile numthreads genome closest_gene_file : pyval)
  : M (Z * pyval) :=
  motif_binding_out <-
    (if py_eq_str closest_gene_file ""
     then re_sub_ ".fasta" "_with_motifs.txt" fastafile
     else re_sub_ ".xls" "_with_motifs.txt" closest_gene_file) ;;
  e <- os_path_exists motif_binding_out ;;
  if e
  then
    print (nl +:+ "Intermediate file " +:+ motif_binding_out
           +:+ " already exists, if you would like to replace, delete and re-run") ;;
    ret (0, PStr motif_binding_out)
  else
    t <- str_ tamo_file ;;
    g <- str_ genome ;;
    c <- str_ closest_gene_file ;;
    n <- str_ numthreads ;;
    f <- str_ fastafile ;;
    let scan_cmd := scan_cmd t f n g c motif_binding_out in
    print (banner "Motif Scanning Output") ;;
    print ("Running command:" +:+ nl +:+ scan_cmd +:+ nl) ;;
    print ("Scanning regions from " +:+ f +:+ " using matrices from " +:+ t
           +:+ " and putting results in " +:+ motif_binding_out) ;;
    res <- os_system scan_cmd ;;
    ret (res, PStr motif_binding_out).

(** *** Step 3: [createBindingMatrix] *)

Definition map_cmd3 (motif_binding_out outfile fastafile tfs matfile : string) : string :=
  "python " +:+ os_path_join progdir "get_window_binding_matrix.py"
  +:+ " " +:+ motif_binding_out +:+ " " +:+ outfile +:+ " " +:+ " " +:+ fastafile
  +:+ " --distance-to-gene='' --motif-id-list=" +:+ tfs +:+ " --outfile=" +:+ matfile.

Definition createBindingMatrix (motif_binding_out outfile fastafile tamo_file : pyval)
    (use_uniprot : bool) : M (Z * pyval) :=
  let* (tfs, matfile) :=
    (if use_uniprot
     then tfs <- re_sub_ ".tamo" "_up_tfids.txt" tamo_file ;;
          matfile <- re_sub_ ".txt" ".tgm" motif_binding_out ;;
          ret (tfs, matfile)
     else matfile <- re_sub_ ".txt" ".tgm" motif_binding_out ;;
          tfs <- re_sub_ ".tamo" "_tfids.txt" tamo_file ;;
          ret (tfs, matfile)) in
  t <- path_ tamo_file ;;
  let extra_file := re_sub ".tamo" "_source_names.txt" (basename t) in
  e <- os_path_exists extra_file ;;
  let tfs := if e then tfs +:+ "," +:+ extra_file else tfs in
  m <- str_ motif_binding_out ;;
  o <- str_ outfile ;;
  f <- str_ fastafile ;;
  let map_cmd := map_cmd3 m o f tfs matfile in
  let pklfile := re_sub ".tgm" ".pkl" matfile in
  e <- os_path_exists pklfile ;;
  if e
  then
    print (nl +:+ "Intermediate file " +:+ pklfile
           +:+ " already exists, if you would like to replace delete and re-run") ;;
    ret (0, PStr pklfile)
  else
    print (banner "Binding Matrix Output") ;;
    print ("Running command:" +:+ nl +:+ map_cmd +:+ nl) ;;
    res <- os_system map_cmd ;;
    ret (res, PStr pklfile).

(** *** Step 4: [getTfsFromRegression] *)

(** Lines 137 to 147: the regression command with its threshold. *)
Definition regression_cmd (outdir pickle_file expressionfile : string) (pvalT qvalT : pyval)
  : M string :=
  let cmd := "python " +:+ os_path_join progdir "motif_regression.py"
             +:+ " --outdir=" +:+ outdir +:+ " " +:+ pickle_file +:+ " " +:+ expressionfile in
  let* (thresh, cmd) :=
    (if is_None pvalT || py_eq_str pvalT ""
     then if is_None qvalT || py_eq_str qvalT ""
          then ret ("0.05", cmd)
          else q <- str_ qvalT ;; ret (q, cmd +:+ " --use-qval")
     else p <- str_ pvalT ;; ret (p, cmd)) in
  ret (cmd +:+ " --thresh=" +:+ thresh).

Definition getTfsFromRegression (pickle_file expressionfile pvalT qvalT : pyval)
  : M (Z * pyval) :=
  outdir <- re_sub_ ".pkl" "regression_results.xls" pickle_file ;;
  print outdir ;;
  e <- os_path_exists outdir ;;
  if negb e
  then
    p <- str_ pickle_file ;;
    x <- str_ expressionfile ;;
    cmd <- regression_cmd outdir p x pvalT qvalT ;;
    print (banner "Regression Output") ;;
    print ("Running command:" +:+ nl +:+ cmd +:+ nl) ;;
    res <- os_system cmd ;;
    ret (res, PStr outdir)
  else
    ret (0, PStr outdir).

(** *** [main] *)

(** [if v is None: v=d], the way [main] supplies a default. *)
Definition or_default (v : pyval) (d : string) : pyval :=
  if is_None v then PStr d else v.

(** What [main] leaves in its local variables when it returns. *)
Record Artifacts : Type := {
  art_outfile : pyval;
  art_binding_out : option pyval;
  art_binding_matrix : pyval;
  art_tfs : option pyval
}.

Section Main.

Variable opts : Options.
Variable config : ConfigParser.

Definition get (section option : string) : M pyval :=
  lift (config_get config section option).

(** [v=config.get(section,option)] followed by [if v is None: v=d]. *)
Definition get_or_default (section option d : string) : M pyval :=
  v <- get section option ;;
  ret (or_default v d).

(** Lines 182 to 200: the chromatin values and the gene-region mapping. *)
Definition main_step1 : M (Z * pyval) :=
  genefile <- get "chromatinData" "genefile" ;;
  bedfile <- get "chromatinData" "bedfile" ;;
  xref <- get "chromatinData" "xreffile" ;;
  window <- get_or_default "chromatinData" "windowsize" "2000" ;;
  let keeprunning := 0 in
  let* (keeprunning, outfile) :=
    (if negb (is_None genefile) && negb (is_None bedfile)
     then mapGenesToRegions genefile xref bedfile window (opt_outdir opts)
     else print "Missing genefile,bedfile or xref file, cannot map genes to regions." ;;
          sys_exit) in
  if negb (Z.eqb keeprunning 0)
  then print "Error running gene mapping step, check your files and try again" ;;
       sys_exit
  else ret (keeprunning, outfile).

(** Lines 202 to 221: the motif values and the motif scan.  [binding_out]
    is assigned only inside the outer [if]. *)
Definition main_step2 (keeprunning : Z) (outfile : pyval)
  : M (Z * pyval * pyval * option pyval) :=
  tamofile <- get "motifData" "tamo_file" ;;
  genome <- get "motifData" "genome" ;;
  numthreads <- get_or_default "motifData" "numthreads" "1" ;;
  fastafile <- get "chromatinData" "fastafile" ;;
  if nonblank tamofile && negb (is_None genome) && nonblank fastafile
  then
    t <- str_ tamofile ;;
    f <- str_ fastafile ;;
    et <- os_path_exists t ;;
    ef <- os_path_exists f ;;
    let* (keeprunning, binding_out) :=
      (if et && ef
       then motifScanning tamofile fastafile numthreads genome outfile
       else print "Missing FASTA file or TAMO file - check your config file and try again." ;;
            ret (keeprunning, PStr "")) in
    if negb (Z.eqb keeprunning 0)
    then print "Error running motif-scanning step, check your files and try again" ;;
         sys_exit
    else ret (keeprunning, tamofile, genome, Some binding_out)
  else ret (keeprunning, tamofile, genome, None).

(** Lines 225 to 233: the binding matrix.  The test reads [binding_out]
    after the two tests on [outfile] have passed. *)
Definition main_step3 (keeprunning : Z) (outfile tamofile : pyval)
    (binding_out : option pyval) : M (Z * pyval) :=
  newfasta <- re_sub_ ".xls" ".fsa" outfile ;;
  let* (keeprunning, binding_matrix) :=
    (if nonblank outfile
     then b <- local "binding_out" binding_out ;;
          if nonblank b
          then createBindingMatrix b outfile (PStr newfasta) tamofile false
          else ret (keeprunning, PStr "")
     else ret (keeprunning, PStr "")) in
  if negb (Z.eqb keeprunning 0)
  then print "Error running matrix creation step, check your files and try again" ;;
       sys_exit
  else ret (keeprunning, binding_matrix).

Definition network_cmd (binding_matrix genome delim : string) : string :=
  let cmd := "python " +:+ os_path_join progdir "zipTgms.py" +:+ " --pkl=" +:+ binding_matrix
             +:+ " --genome " +:+ genome +:+ " --as-network --tf-delimiter=" +:+ delim in
  if opt_allgenes opts then cmd +:+ " --allGenes" else cmd.

(** Lines 236 to 246: the network export; its status is dropped. *)
Definition main_network (genome binding_matrix : pyval) : M unit :=
  do_network <- get "motifData" "doNetwork" ;;
  delim <- get_or_default "motifData" "tfDelimiter" "" ;;
  if nonblank do_network && negb (py_eq_str do_network "False")
  then
    b <- str_ binding_matrix ;;
    g <- str_ genome ;;
    d <- str_ delim ;;
    let cmd := network_cmd b g d in
    print cmd ;;
    os_system cmd ;;
    ret tt
  else ret tt.

(** Lines 248 to 260: the regression. *)
Definition main_step4 (keeprunning : Z) (binding_matrix : pyval)
  : M (Z * option pyval) :=
  expr <- get "expressionData" "expressionFile" ;;
  pvt <- get "expressionData" "pvalThresh" ;;
  qvt <- get "expressionData" "qvalThresh" ;;
  let* (keeprunning, tfs) :=
    (if nonblank expr
     then
       b <- str_ binding_matrix ;;
       x <- str_ expr ;;
       eb <- os_path_exists b ;;
       ex <- os_path_exists x ;;
       if negb (py_eq_str binding_matrix "") && eb && ex
       then let* (keeprunning, tfs) := getTfsFromRegression binding_matrix expr pvt qvt in
            ret (keeprunning, Some tfs)
       else print "Cannot perform regression because binding matrix or expression datasets are missing" ;;
            ret (keeprunning, None)
     else ret (keeprunning, None)) in
  if negb (Z.eqb keeprunning 0)
  then print "Error running regression step, check your files and try again" ;;
       sys_exit
  else ret (keeprunning, tfs).

(** [main], with [args] the positional arguments and [config] what
    [config.read(args[0])] found. *)
Definition main (args : list string) : M Artifacts :=
  if negb (Nat.eqb (List.length args) 1)
  then print "Need a configuration file to provide experiment-level details" ;;
       sys_exit
  else
    let* (keeprunning, outfile) := main_step1 in
    let* (keeprunning, tamofile, genome, binding_out) := main_step2 keeprunning outfile in
    let* (keeprunning, binding_matrix) := main_step3 keeprunning outfile tamofile binding_out in
    main_network genome binding_matrix ;;
    let* (keeprunning, tfs) := main_step4 keeprunning binding_matrix in
    ret {| art_outfile := outfile;
           art_binding_out := binding_out;
           art_binding_matrix := binding_matrix;
           art_tfs := tfs |}.

End Main.

End Garnet.

(** ** Vocabulary of the statements *)

(** The names the steps give to their outputs, as the script computes them
    inline. *)
Definition mapping_outdir (bedfile window : string) (outdir : pyval) : string :=
  match outdir with
  | PNone => splitext_root (basename bedfile) +:+ "eventsWithin" +:+ window
  | PStr d => d
  end.

Definition events_file (outdir : string) : string :=
  outdir +:+ "/events_to_genes.xls".

Definition motif_file (closest_gene_file : string) : string :=
  re_sub ".xls" "_with_motifs.txt" closest_gene_file.

Definition pkl_file (motif_binding_out : string) : string :=
  re_sub ".tgm" ".pkl" (re_sub ".txt" ".tgm" motif_binding_out).

Definition regression_file (pickle_file : string) : string :=
  re_sub ".pkl" "regression_results.xls" pickle_file.

(** The option cannot be read: [config.get] raises. *)
Definition absent (config : ConfigParser) (section option : string) : Prop :=
  forall v, config_get config section option <> Ret v.

(** A run that did not return normally: [sys.exit()] or an exception. *)
Definition aborted {A} (r : Res A) : Prop :=
  match r with
  | Ret _ => False
  | _ => True
  end.

(** On the file system [F], [m] hands no command to [os.system], leaves the
    files as they are, and what it returns satisfies [Q]. *)
Definition quiet (F : string -> bool) {A} (m : M A) (Q : A -> Prop) : Prop :=
  forall w, fs w = F ->
    fs (snd (m w)) = F /\ calls (snd (m w)) = calls w /\
    forall a, fst (m w) = Ret a -> Q a.

(** The outcome of [m] and the file system it leaves depend on the world
    through its file system only, not through the logs. *)
Definition fs_pure {A} (m : M A) : Prop :=
  forall w1 w2, fs w1 = fs w2 ->
    fst (m w1) = fst (m w2) /\ fs (snd (m w1)) = fs (snd (m w2)).

(** Every stage that a run from [w] can reach finds the file it would
    produce: the mapping directory and file; the motif scores and the pickled
    matrix when the motif library and the sequences are there; the regression
    results when the expression data are there. *)
Definition outputs_cached (opts : Options) (config : ConfigParser) (w : World) : Prop :=
  exists bedfile window,
    config_get config "chromatinData" "bedfile" = Ret (PStr bedfile) /\
    config_get config "chromatinData" "windowsize" = Ret (PStr window) /\
    let outdir := mapping_outdir bedfile window (opt_outdir opts) in
    let motif_binding_out := motif_file (events_file outdir) in
    fs w outdir = true /\
    fs w (events_file outdir) = true /\
    (forall tamofile fastafile,
        config_get config "motifData" "tamo_file" = Ret (PStr tamofile) ->
        config_get config "chromatinData" "fastafile" = Ret (PStr fastafile) ->
        fs w tamofile = true -> fs w fastafile = true ->
        fs w motif_binding_out = true /\ fs w (pkl_file motif_binding_out) = true) /\
    (forall expr,
        config_get config "expressionData" "expressionFile" = Ret (PStr expr) ->
        fs w expr = true ->
        fs w (pkl_file motif_binding_out) = true ->
        fs w (regression_file (pkl_file motif_binding_out)) = true).

(** The network export is off: [doNetwork], when it can be read, is blank
    or [False]. *)
Definition network_off (config : ConfigParser) : Prop :=
  forall v, config_get config "motifData" "doNetwork" = Ret v ->
            nonblank v && negb (py_eq_str v "False") = false.

(** Substitution of the first match only ([count=1]), the reading of
    [re.sub] as a first-occurrence replacement. *)
Fixpoint drop_chars (n : nat) (s : string) : string :=
  match n, s with
  | O, _ => s
  | S _, EmptyString => EmptyString
  | S k, String _ s' => drop_chars k s'
  end.


(** [pat] matches somewhere in [s]. *)
Fixpoint occurs (pat s : string) : bool :=
  match s with
  | EmptyString => false
  | String _ s' => match_here pat s || occurs pat s'
  end.

(** [pat] matches in [a ++ b] at a position of [a]. *)
Fixpoint starts_in (pat a b : string) : bool :=
  match a with
  | EmptyString => false
  | String _ a' => match_here pat (a +:+ b) || starts_in pat a' b
  end.

Fixpoint has_char (c : ascii) (s : string) : bool :=
  match s with
  | EmptyString => false
  | String d s' => Ascii.eqb d c || has_char c s'
  end.

(** No NUL byte in the string: what [os.path.exists] and [os.system] of the
    source ask of their argument before they do anything. *)
Definition nul_free (s : string) : bool := negb (has_char "000" s).

(** Whatever [m] returns satisfies [Q] (nothing is said of a run that exits
    or raises). *)
Definition returns {A} (m : M A) (Q : A -> Prop) : Prop :=
  forall w a w', m w = (Ret a, w') -> Q a.


(** [m] never leaves through [sys.exit()]. *)
Definition no_exit {A} (m : M A) : Prop :=
  forall w w', m w <> (Exit, w').

(** The world after [os.system(cmd)]. *)
Definition after_system (shell : string -> (string -> bool) -> Z * (string -> bool))
    (cmd : string) (w : World) : World :=
  {| fs := snd (shell cmd (fs w)); calls := calls w ++ [cmd]; stdout := stdout w |}.

(** ** Sample configurations and worlds *)

Definition mk_config (chromatin motif expression : list (string * string)) : ConfigParser :=
  {| _sections := list_to_map [("chromatinData", list_to_map chromatin);
                               ("motifData", list_to_map motif);
                               ("expressionData", list_to_map expression)];
     _defaults := ∅;
     _interpolate := fun _ _ value => inr value |}.

Definition chromatin_ex : list (string * string) :=
  [("bedfile", "peaks.bed"); ("fastafile", "peaks.fasta"); ("genefile", "genes.txt");
   ("xreffile", "xref.txt"); ("windowsize", "2000")].

Definition motif_ex (donetwork : string) : list (string * string) :=
  [("tamo_file", "motifs.tamo"); ("genome", "hg19"); ("numthreads", "4");
   ("donetwork", donetwork); ("tfdelimiter", ".")].

Definition expression_ex : list (string * string) :=
  [("expressionfile", "expr.txt"); ("pvalthresh", "0.01"); ("qvalthresh", "")].

(** The configuration of the script's docstring. *)
Definition config_ex : ConfigParser :=
  mk_config chromatin_ex (motif_ex "False") expression_ex.

(** The same with the network export switched on. *)
Definition config_network : ConfigParser :=
  mk_config chromatin_ex (motif_ex "True") expression_ex.


(** No [windowsize] line. *)
Definition config_no_window : ConfigParser :=
  mk_config [("bedfile", "peaks.bed"); ("fastafile", "peaks.fasta"); ("genefile", "genes.txt");
             ("xreffile", "xref.txt")]
            (motif_ex "False") expression_ex.

(** [tamo_file=] left blank. *)
Definition config_blank_tamo : ConfigParser :=
  mk_config chromatin_ex
            [("tamo_file", ""); ("genome", "hg19"); ("numthreads", "4");
             ("donetwork", "False"); ("tfdelimiter", ".")]
            expression_ex.

(** No [expressionFile] line. *)
Definition config_no_expression : ConfigParser :=
  mk_config chromatin_ex (motif_ex "False") [("pvalthresh", "0.01"); ("qvalthresh", "")].

Definition opts_ex : Options := {| opt_outdir := PNone; opt_allgenes := false |}.

Definition files (l : list string) : string -> bool :=
  fun p => existsb (String.eqb p) l.

Definition inputs_ex : list string :=
  ["peaks.bed"; "peaks.fasta"; "genes.txt"; "xref.txt"; "motifs.tamo"; "expr.txt"].

Definition outputs_ex : list string :=
  ["peakseventsWithin2000";
   "peakseventsWithin2000/events_to_genes.xls";
   "peakseventsWithin2000/events_to_genes_with_motifs.txt";
   "peakseventsWithin2000/events_to_genes_with_motifs.pkl";
   "peakseventsWithin2000/events_to_genes_with_motifsregression_results.xls"].

Definition world_of (l : list string) : World :=
  {| fs := files l; calls := []; stdout := [] |}.

(** Only the inputs are there. *)
Definition world_fresh : World := world_of inputs_ex.

(** The inputs and every output of an earlier run are there. *)
Definition world_cached : World := world_of (inputs_ex ++ outputs_ex).

(** Tools that return a status and leave the file system as it is. *)
Definition shell_status (status : Z) : string -> (string -> bool) -> Z * (string -> bool) :=
  fun _ f => (status, f).

(** No [numthreads] line. *)
Definition config_no_numthreads : ConfigParser :=
  mk_config chromatin_ex
            [("tamo_file", "motifs.tamo"); ("genome", "hg19");
             ("donetwork", "False"); ("tfdelimiter", ".")]
            expression_ex.

(** Nothing was read: the configuration file was not there. *)
Definition config_empty : ConfigParser :=
  {| _sections := ∅; _defaults := ∅; _interpolate := fun _ _ value => inr value |}.

(** The inputs without the motif library. *)
Definition world_no_tamo : World :=
  world_of ["peaks.bed"; "peaks.fasta"; "genes.txt"; "xref.txt"; "expr.txt"].

(** No [tfDelimiter] line, and the network export switched off. *)
Definition config_no_delimiter : ConfigParser :=
  mk_config chromatin_ex
            [("tamo_file", "motifs.tamo"); ("genome", "hg19"); ("numthreads", "4");
             ("donetwork", "False")]
            expression_ex.

(** The network export written in lower case. *)
Definition config_network_lower : ConfigParser :=
  mk_config chromatin_ex (motif_ex "false") expression_ex.

(** Everything is cached but the regression results. *)
Definition world_no_regression : World :=
  world_of (inputs_ex ++ ["peakseventsWithin2000";
                          "peakseventsWithin2000/events_to_genes.xls";
                          "peakseventsWithin2000/events_to_genes_with_motifs.txt";
                          "peakseventsWithin2000/events_to_genes_with_motifs.pkl"]).

(** * Properties *)

Local Open Scope py_scope.

(** ** The monad *)

Lemma bind_Ret {A B} (m : M A) (k : A -> M B) w a w' :
  m w = (Ret a, w') -> bind m k w = k a w'.
Proof. intros H. unfold bind. now rewrite H. Qed.

Lemma bind_Exit {A B} (m : M A) (k : A -> M B) w w' :
  m w = (Exit, w') -> bind m k w = (Exit, w').
Proof. intros H. unfold bind. now rewrite H. Qed.

Lemma bind_Raise {A B} (m : M A) (k : A -> M B) w e w' :
  m w = (Raise e, w') -> bind m k w = (Raise e, w').
Proof. intros H. unfold bind. now rewrite H. Qed.

Lemma bind_inv_Ret {A B} (m : M A) (k : A -> M B) w b w2 :
  bind m k w = (Ret b, w2) ->
  exists a w1, m w = (Ret a, w1) /\ k a w1 = (Ret b, w2).
Proof.
  unfold bind. destruct (m w) as [[a| |e] w1]; intros H; try discriminate.
  eauto.
Qed.

(** Runs the primitives of the monad, leaving strings and lookups alone. *)
Ltac run :=
  cbn [bind ret raise sys_exit lift print os_path_exists str_ path_ local re_sub_
       get get_or_default fst snd negb andb orb is_None or_default].

Ltac run_in H :=
  cbn [bind ret raise sys_exit lift print os_path_exists str_ path_ local re_sub_
       get get_or_default fst snd negb andb orb is_None or_default] in H.

(** Unfolds the monad all the way, for runs that branch on the files. *)
Ltac exec :=
  cbv beta iota delta [bind ret raise sys_exit lift print os_path_exists str_ path_ local
                       re_sub_ get get_or_default is_None fst snd].

(** What [config.get] returns is a string. *)
Lemma config_get_str config section option v :
  config_get config section option = Ret v -> exists s, v = PStr s.
Proof.
  unfold config_get, interpolated.
  repeat match goal with
         | |- context [match ?x with _ => _ end] => destruct x
         end; intros H; inversion H; eauto.
Qed.

Lemma config_get_not_Exit config section option :
  config_get config section option <> Exit.
Proof.
  unfold config_get, interpolated.
  repeat match goal with
         | |- context [match ?x with _ => _ end] => destruct x
         end; discriminate.
Qed.

(** ** Substitution *)



Lemma re_sub_no_match pat repl c s :
  match_here pat (String c s) = false ->
  re_sub pat repl (String c s) = String c (re_sub pat repl s).
Proof. intros Hm. unfold re_sub. cbn [sub_from]. now rewrite Hm. Qed.

Lemma append_nil_inv (a b : string) : a +:+ b = "" -> a = "" /\ b = "".
Proof. destruct a; cbn; [auto | discriminate]. Qed.

(** A substitution with a non-empty replacement never empties a path. *)
Lemma sub_from_nonempty pat repl k s :
  repl <> "" -> sub_from pat repl k s = "" -> drop_chars k s = "".
Proof.
  intros Hrepl. revert k.
  induction s as [|c s IH]; intros [|k] H; try reflexivity.
  - cbn [sub_from] in H. destruct (match_here pat (String c s)).
    + apply append_nil_inv in H. tauto.
    + discriminate.
  - cbn [sub_from] in H. cbn [drop_chars]. now apply IH.
Qed.

Lemma re_sub_nonempty pat repl s :
  repl <> "" -> s <> "" -> re_sub pat repl s <> "".
Proof.
  intros Hrepl Hs H. apply sub_from_nonempty in H; [|assumption].
  now destruct s.
Qed.

Lemma events_file_nonempty outdir : events_file outdir <> "".
Proof. unfold events_file. destruct outdir; discriminate. Qed.

Lemma eqb_empty_false s : s <> "" -> String.eqb s "" = false.
Proof. intros H. now apply String.eqb_neq. Qed.

(** ** The stages and their caches *)

Section Stages.

Variable progdir : string.
Variable shell : string -> (string -> bool) -> Z * (string -> bool).

Lemma os_system_run cmd w :
  os_system shell cmd w
  = (Ret (fst (shell cmd (fs w))),
     {| fs := snd (shell cmd (fs w)); calls := calls w ++ [cmd]; stdout := stdout w |}).
Proof. unfold os_system. now destruct (shell cmd (fs w)). Qed.

Lemma mapGenesToRegions_cached g x b win outdir w :
  let od := mapping_outdir b win outdir in
  fs w od = true ->
  fs w (events_file od) = true ->
  mapGenesToRegions progdir shell (PStr g) (PStr x) (PStr b) (PStr win) outdir w
  = (Ret (0, PStr (events_file od)),
     log_line ("File " +:+ events_file od
               +:+ " already exists. If you would like to replace it, delete and re-run") w).
Proof.
  intros od Hd Hf. unfold mapGenesToRegions, events_file in *.
  destruct outdir as [|d]; cbn [mapping_outdir] in od; subst od; run;
    rewrite Hd; run; rewrite Hf; run; reflexivity.
Qed.

(** Whatever it does, step 1 names its output after the directory. *)
Lemma mapGenesToRegions_outfile g x b win outdir w res out w' :
  mapGenesToRegions progdir shell g x b win outdir w = (Ret (res, out), w') ->
  exists od, out = PStr (events_file od).
Proof.
  unfold mapGenesToRegions, events_file. intros H.
  apply bind_inv_Ret in H as (od & w1 & _ & H). exists od.
  repeat (apply bind_inv_Ret in H as (? & ? & _ & H)).
  destruct (negb _).
  - repeat (apply bind_inv_Ret in H as (? & ? & _ & H)).
    unfold ret in H. now inversion H.
  - repeat (apply bind_inv_Ret in H as (? & ? & _ & H)).
    unfold ret in H. now inversion H.
Qed.

Lemma motifScanning_cached tamo fasta numthreads genome closest w :
  let out := if String.eqb closest ""
             then re_sub ".fasta" "_with_motifs.txt" fasta
             else motif_file closest in
  fs w out = true ->
  motifScanning progdir shell tamo (PStr fasta) numthreads genome (PStr closest) w
  = (Ret (0, PStr out),
     log_line (nl +:+ "Intermediate file " +:+ out
               +:+ " already exists, if you would like to replace, delete and re-run") w).
Proof.
  intros out Hf. unfold motifScanning, motif_file in *. cbn [py_eq_str].
  subst out. destruct (String.eqb closest ""); run; rewrite Hf; run; reflexivity.
Qed.

Lemma createBindingMatrix_cached motif_binding_out outfile fasta tamo w :
  fs w (pkl_file motif_binding_out) = true ->
  createBindingMatrix progdir shell (PStr motif_binding_out) (PStr outfile) (PStr fasta)
                      (PStr tamo) false w
  = (Ret (0, PStr (pkl_file motif_binding_out)),
     log_line (nl +:+ "Intermediate file " +:+ pkl_file motif_binding_out
               +:+ " already exists, if you would like to replace delete and re-run") w).
Proof.
  intros Hf. unfold createBindingMatrix, pkl_file in *. run.
  rewrite Hf. run. reflexivity.
Qed.

Lemma getTfsFromRegression_cached pickle expr pvalT qvalT w :
  fs w (regression_file pickle) = true ->
  getTfsFromRegression progdir shell (PStr pickle) expr pvalT qvalT w
  = (Ret (0, PStr (regression_file pickle)), log_line (regression_file pickle) w).
Proof.
  intros Hf. unfold getTfsFromRegression, regression_file in *. run.
  cbn [log_line fs]. rewrite Hf. run. reflexivity.
Qed.



Lemma os_system_world cmd w :
  os_system shell cmd w = (Ret (fst (shell cmd (fs w))), after_system shell cmd w).
Proof. apply os_system_run. Qed.

(** Step 1 on strings, in full: the directory, then the cache or the
    command. *)
Lemma mapGenesToRegions_run g x b win outdir w :
  let od := mapping_outdir b win outdir in
  let w1 := if fs w od then w else after_system shell ("mkdir " +:+ od) w in
  let cmd := map_cmd1 progdir g x b win (events_file od) in
  exists w',
    mapGenesToRegions progdir shell (PStr g) (PStr x) (PStr b) (PStr win) outdir w
    = (Ret (if fs w1 (events_file od) then 0 else fst (shell cmd (fs w1)),
            PStr (events_file od)), w')
    /\ calls w'
       = ((calls w ++ (if fs w od then [] else ["mkdir " +:+ od]))
          ++ (if fs w1 (events_file od) then [] else [cmd]))%list.
Proof.
  intros od w1 cmd. subst w1 cmd. unfold mapGenesToRegions, events_file.
  destruct outdir as [|d]; cbn [mapping_outdir] in od; subst od; exec;
    (destruct (fs w _) eqn:Ed; cbn [negb];
     [|rewrite os_system_world; cbv beta iota]);
    (match goal with
     | |- context [if negb (fs ?w1 ?f) then _ else _] => destruct (fs w1 f) eqn:Ef
     end; cbn [negb]; [|rewrite os_system_world; cbv beta iota]).
  all: eexists; split; [reflexivity|].
  all: cbn [calls after_system log_line]; rewrite ?app_nil_r; reflexivity.
Qed.

(** Step 2 on strings with a gene file, in full. *)
Lemma motifScanning_run t f n g c w :
  c <> "" ->
  let out := motif_file c in
  let cmd := scan_cmd progdir t f n g c out in
  exists w',
    motifScanning progdir shell (PStr t) (PStr f) (PStr n) (PStr g) (PStr c) w
    = (Ret (if fs w out then 0 else fst (shell cmd (fs w)), PStr out), w')
    /\ calls w' = (calls w ++ (if fs w out then [] else [cmd]))%list.
Proof.
  intros Hc out cmd. subst out cmd. unfold motifScanning, motif_file.
  cbn [py_eq_str]. rewrite (eqb_empty_false _ Hc). exec.
  destruct (fs w (re_sub ".xls" "_with_motifs.txt" c)) eqn:Ef;
    [|rewrite os_system_world; cbv beta iota];
    eexists; (split; [reflexivity|]);
    cbn [calls after_system log_line]; rewrite ?app_nil_r; reflexivity.
Qed.



End Stages.

(** ** Computations that run no command *)

Section Quiet.

Variable F : string -> bool.

Lemma quiet_bind {A B} (m : M A) (k : A -> M B) (Q : A -> Prop) (R : B -> Prop) :
  quiet F m Q -> (forall a, Q a -> quiet F (k a) R) -> quiet F (bind m k) R.
Proof.
  intros Hm Hk w Hw. destruct (Hm w Hw) as (Hf & Hc & Hq).
  unfold bind. destruct (m w) as [[a| |e] w1]; cbn [fst snd] in *.
  - destruct (Hk a (Hq a eq_refl) w1 Hf) as (Hf' & Hc' & Hq').
    repeat split; [assumption | congruence | assumption].
  - repeat split; [assumption | assumption | discriminate].
  - repeat split; [assumption | assumption | discriminate].
Qed.

Lemma quiet_weaken {A} (m : M A) (Q R : A -> Prop) :
  quiet F m Q -> (forall a, Q a -> R a) -> quiet F m R.
Proof.
  intros Hm HQR w Hw. destruct (Hm w Hw) as (Hf & Hc & Hq). auto.
Qed.

Lemma quiet_ret {A} (a : A) (Q : A -> Prop) : Q a -> quiet F (ret a) Q.
Proof. intros Ha w Hw. cbn. repeat split; [assumption|]. now intros ? [= <-]. Qed.

Lemma quiet_raise {A} e (Q : A -> Prop) : quiet F (raise e) Q.
Proof. intros w Hw. cbn. repeat split; [assumption | discriminate]. Qed.

Lemma quiet_exit {A} (Q : A -> Prop) : quiet F sys_exit Q.
Proof. intros w Hw. cbn. repeat split; [assumption | discriminate]. Qed.

Lemma quiet_lift {A} (r : Res A) : quiet F (lift r) (fun a => r = Ret a).
Proof. intros w Hw. cbn. repeat split; [assumption | auto]. Qed.

Lemma quiet_print s (Q : unit -> Prop) : Q tt -> quiet F (print s) Q.
Proof. intros HQ w Hw. cbn. repeat split; [assumption|]. now intros []. Qed.

Lemma quiet_exists p : quiet F (os_path_exists p) (fun e => e = F p).
Proof. intros w Hw. cbn. repeat split; [assumption|]. intros a [= <-]. now rewrite Hw. Qed.

Lemma quiet_str v : quiet F (str_ v) (fun s => v = PStr s).
Proof. destruct v; [apply quiet_raise | now apply quiet_ret]. Qed.

Lemma quiet_local name v : quiet F (local name v) (fun x => v = Some x).
Proof. destruct v; [now apply quiet_ret | apply quiet_raise]. Qed.

Lemma quiet_re_sub pat repl v :
  quiet F (re_sub_ pat repl v) (fun s => exists t, v = PStr t /\ s = re_sub pat repl t).
Proof. destruct v; [apply quiet_raise | apply quiet_ret; eauto]. Qed.

(** A computation whose run is known and changes only the printed lines. *)
Lemma quiet_known {A} (m : M A) (a : A) (Q : A -> Prop) :
  (forall w, fs w = F -> exists s, m w = (Ret a, log_line s w)) ->
  Q a -> quiet F m Q.
Proof.
  intros Hm Ha w Hw. destruct (Hm w Hw) as [s ->]. cbn.
  repeat split; [assumption|]. now intros ? [= <-].
Qed.

End Quiet.

(** ** Computations that see the world through its files only *)

Lemma fs_pure_bind {A B} (m : M A) (k : A -> M B) :
  fs_pure m -> (forall a, fs_pure (k a)) -> fs_pure (bind m k).
Proof.
  intros Hm Hk w1 w2 Hw. destruct (Hm w1 w2 Hw) as [Hr Hf].
  unfold bind.
  destruct (m w1) as [[a1| |e1] w1'], (m w2) as [[a2| |e2] w2'];
    cbn [fst snd] in *; try discriminate; try (split; [congruence | assumption]).
  injection Hr as ->. now apply Hk.
Qed.

Lemma fs_pure_const {A} (r : Res A) : fs_pure (fun w => (r, w)).
Proof. intros w1 w2 Hw. cbn. auto. Qed.

Lemma fs_pure_print s : fs_pure (print s).
Proof. intros w1 w2 Hw. cbn. auto. Qed.

Lemma fs_pure_exists p : fs_pure (os_path_exists p).
Proof. intros w1 w2 Hw. cbn. rewrite Hw. auto. Qed.

Lemma fs_pure_system shell cmd : fs_pure (os_system shell cmd).
Proof.
  intros w1 w2 Hw. unfold os_system. rewrite Hw.
  destruct (shell cmd (fs w2)). cbn. auto.
Qed.

(** Follows the syntax of a computation down to its primitives. *)
Ltac fs_pure_tac :=
  repeat first
    [ apply fs_pure_bind; [|intros]
    | apply fs_pure_print
    | apply fs_pure_exists
    | apply fs_pure_system
    | apply (fs_pure_const (Ret _))
    | apply (fs_pure_const Exit)
    | apply (fs_pure_const (Raise _))
    | apply fs_pure_const
    | match goal with
      | |- fs_pure (match ?x with _ => _ end) => destruct x
      end
    | progress unfold ret, raise, sys_exit, lift, str_, path_, local, re_sub_,
        get, get_or_default ].

Lemma fs_pure_mapGenesToRegions progdir shell g x b win outdir :
  fs_pure (mapGenesToRegions progdir shell g x b win outdir).
Proof. unfold mapGenesToRegions. fs_pure_tac. Qed.

Lemma fs_pure_motifScanning progdir shell t f n g c :
  fs_pure (motifScanning progdir shell t f n g c).
Proof. unfold motifScanning. fs_pure_tac. Qed.

Lemma fs_pure_createBindingMatrix progdir shell m o f t u :
  fs_pure (createBindingMatrix progdir shell m o f t u).
Proof. unfold createBindingMatrix. fs_pure_tac. Qed.

Lemma fs_pure_getTfsFromRegression progdir shell p x pv qv :
  fs_pure (getTfsFromRegression progdir shell p x pv qv).
Proof. unfold getTfsFromRegression, regression_cmd. fs_pure_tac. Qed.

(** The outcome of a run is a function of the configuration, the options and
    the files: the logs do not feed back into it. *)
Lemma fs_pure_main progdir shell opts config args :
  fs_pure (main progdir shell opts config args).
Proof.
  unfold main, main_step1, main_step2, main_step3, main_network, main_step4.
  fs_pure_tac;
    first [ apply fs_pure_mapGenesToRegions | apply fs_pure_motifScanning
          | apply fs_pure_createBindingMatrix | apply fs_pure_getTfsFromRegression ].
Qed.

(** ** Computations that only add to the commands *)

















(** ** A run over a full cache *)

Section Cached.

Variable progdir : string.
Variable shell : string -> (string -> bool) -> Z * (string -> bool).
Variable opts : Options.
Variable config : ConfigParser.
Variable F : string -> bool.
Variables bedfile window : string.

Local Abbreviation outdir := (mapping_outdir bedfile window (opt_outdir opts)).
Local Abbreviation outfile := (events_file outdir).
Local Abbreviation motif_out := (motif_file outfile).
Local Abbreviation pklfile := (pkl_file motif_out).

Hypothesis Hbed : config_get config "chromatinData" "bedfile" = Ret (PStr bedfile).
Hypothesis Hwin : config_get config "chromatinData" "windowsize" = Ret (PStr window).
Hypothesis Hdir : F outdir = true.
Hypothesis Hout : F outfile = true.
Hypothesis Hmotif : forall tamofile fastafile,
    config_get config "motifData" "tamo_file" = Ret (PStr tamofile) ->
    config_get config "chromatinData" "fastafile" = Ret (PStr fastafile) ->
    F tamofile = true -> F fastafile = true ->
    F motif_out = true /\ F pklfile = true.
Hypothesis Hreg : forall expr,
    config_get config "expressionData" "expressionFile" = Ret (PStr expr) ->
    F expr = true -> F pklfile = true -> F (regression_file pklfile) = true.
Hypothesis Hnet : network_off config.

Lemma quiet_get section option :
  quiet F (get config section option)
        (fun v => exists s, v = PStr s /\ config_get config section option = Ret (PStr s)).
Proof.
  unfold get. eapply quiet_weaken; [apply quiet_lift|].
  intros v Hv. destruct (config_get_str _ _ _ _ Hv) as [s ->]. eauto.
Qed.

Lemma quiet_get_or_default section option d :
  quiet F (get_or_default config section option d)
        (fun v => exists s, v = PStr s /\ config_get config section option = Ret (PStr s)).
Proof.
  unfold get_or_default. eapply quiet_bind; [apply quiet_get|].
  intros v (s & -> & Hs). apply quiet_ret. cbn. eauto.
Qed.

Lemma main_step1_quiet :
  quiet F (main_step1 progdir shell opts config) (fun r => r = (0, PStr outfile)).
Proof.
  unfold main_step1.
  eapply quiet_bind; [apply quiet_get|]. intros ? (g & -> & Hg).
  eapply quiet_bind; [apply quiet_get|]. intros ? (b & -> & Hb).
  eapply quiet_bind; [apply quiet_get|]. intros ? (x & -> & Hx).
  eapply quiet_bind; [apply quiet_get_or_default|]. intros ? (win & -> & Hw).
  rewrite Hbed in Hb. injection Hb as <-. rewrite Hwin in Hw. injection Hw as <-.
  cbn [is_None negb andb].
  eapply quiet_bind with (Q := fun r => r = (0, PStr outfile)).
  - apply quiet_known with (a := (0, PStr outfile)); [|reflexivity]. intros w Hfs. eexists.
    apply mapGenesToRegions_cached; now rewrite Hfs.
  - intros ? ->. cbn. now apply quiet_ret.
Qed.

(** After step 2 the motif scores are either absent (the empty reference)
    or the cached file, and then the pickled matrix is cached too. *)
Lemma main_step2_quiet :
  quiet F (main_step2 progdir shell config 0 (PStr outfile))
        (fun r => r.1.1.1 = 0 /\
                  (r.2 = None \/
                   r.2 = Some (PStr "") \/
                   (r.2 = Some (PStr motif_out) /\ F pklfile = true /\
                    exists t, r.1.1.2 = PStr t))).
Proof.
  unfold main_step2.
  eapply quiet_bind; [apply quiet_get|]. intros ? (t & -> & Ht).
  eapply quiet_bind; [apply quiet_get|]. intros ? (g & -> & Hg).
  eapply quiet_bind; [apply quiet_get_or_default|]. intros ? (n & -> & Hn).
  eapply quiet_bind; [apply quiet_get|]. intros ? (f & -> & Hf).
  destruct (nonblank (PStr t) && negb (is_None (PStr g)) && nonblank (PStr f)).
  2:{ apply quiet_ret. cbn. auto. }
  eapply quiet_bind; [apply quiet_str|]. intros ? [= <-].
  eapply quiet_bind; [apply quiet_str|]. intros ? [= <-].
  eapply quiet_bind; [apply quiet_exists|]. intros ? ->.
  eapply quiet_bind; [apply quiet_exists|]. intros ? ->.
  destruct (F t) eqn:Et, (F f) eqn:Ef; cbn [andb].
  - destruct (Hmotif t f Ht Hf Et Ef) as [Hm Hp].
    eapply quiet_bind with (Q := fun r => r = (0, PStr motif_out)).
    + apply quiet_known with (a := (0, PStr motif_out)); [|reflexivity]. intros w Hfs. eexists.
      pose proof (motifScanning_cached progdir shell (PStr t) f (PStr n) (PStr g) outfile w) as H.
      cbn zeta in H. rewrite (eqb_empty_false _ (events_file_nonempty _)) in H.
      apply H. now rewrite Hfs.
    + intros ? ->. cbn. apply quiet_ret. cbn. eauto 10.
  - eapply quiet_bind with (Q := fun r => r = (0, PStr "")).
    + eapply quiet_bind; [now apply quiet_print with (Q := fun _ => True)|].
      intros _ _. now apply quiet_ret.
    + intros ? ->. cbn. apply quiet_ret. cbn. auto.
  - eapply quiet_bind with (Q := fun r => r = (0, PStr "")).
    + eapply quiet_bind; [now apply quiet_print with (Q := fun _ => True)|].
      intros _ _. now apply quiet_ret.
    + intros ? ->. cbn. apply quiet_ret. cbn. auto.
  - eapply quiet_bind with (Q := fun r => r = (0, PStr "")).
    + eapply quiet_bind; [now apply quiet_print with (Q := fun _ => True)|].
      intros _ _. now apply quiet_ret.
    + intros ? ->. cbn. apply quiet_ret. cbn. auto.
Qed.

Lemma main_step3_quiet tamofile binding_out :
  binding_out = None \/
  binding_out = Some (PStr "") \/
  (binding_out = Some (PStr motif_out) /\ F pklfile = true /\
   exists t, tamofile = PStr t) ->
  quiet F (main_step3 progdir shell 0 (PStr outfile) tamofile binding_out)
        (fun r => r = (0, PStr "") \/ r = (0, PStr pklfile)).
Proof.
  intros Hb. unfold main_step3.
  eapply quiet_bind; [apply quiet_re_sub|]. intros newfasta (? & [= <-] & ->).
  unfold nonblank at 1. cbn [is_None py_eq_str negb andb].
  rewrite (eqb_empty_false _ (events_file_nonempty _)). cbn [negb].
  destruct Hb as [-> | [-> | (-> & Hp & t & ->)]].
  - eapply quiet_bind with (Q := fun _ => False); [|intros ? []].
    eapply quiet_bind with (Q := fun _ => False); [apply quiet_raise | intros ? []].
  - eapply quiet_bind with (Q := fun r => r = (0, PStr "")).
    + eapply quiet_bind; [apply quiet_local|].
      intros ? [= <-]. cbn. now apply quiet_ret.
    + intros ? ->. cbn. apply quiet_ret. auto.
  - eapply quiet_bind with (Q := fun r => r = (0, PStr pklfile)).
    + eapply quiet_bind; [apply quiet_local|].
      intros ? [= <-]. unfold nonblank. cbn [is_None py_eq_str negb andb].
      rewrite (eqb_empty_false motif_out).
      2:{ apply re_sub_nonempty; [discriminate | apply events_file_nonempty]. }
      cbn [negb]. apply quiet_known with (a := (0, PStr pklfile)); [|reflexivity].
      intros w Hfs. eexists. apply createBindingMatrix_cached. now rewrite Hfs.
    + intros ? ->. cbn. apply quiet_ret. auto.
Qed.

Lemma main_network_quiet genome binding_matrix :
  quiet F (main_network progdir shell opts config genome binding_matrix) (fun _ => True).
Proof.
  unfold main_network.
  eapply quiet_bind; [apply quiet_get|]. intros ? (s & -> & Hs).
  eapply quiet_bind; [apply quiet_get_or_default|]. intros ? (d & -> & Hd).
  rewrite (Hnet _ Hs). now apply quiet_ret.
Qed.

Lemma main_step4_quiet binding_matrix :
  binding_matrix = PStr "" \/ binding_matrix = PStr pklfile ->
  quiet F (main_step4 progdir shell config 0 binding_matrix) (fun _ => True).
Proof.
  intros Hb. unfold main_step4.
  eapply quiet_bind; [apply quiet_get|]. intros ? (x & -> & Hx).
  eapply quiet_bind; [apply quiet_get|]. intros ? (pv & -> & Hpv).
  eapply quiet_bind; [apply quiet_get|]. intros ? (qv & -> & Hqv).
  eapply quiet_bind with (Q := fun _ => True).
  2:{ intros [kr tfs] _. destruct (negb _); [|now apply quiet_ret].
      eapply quiet_bind; [now apply quiet_print with (Q := fun _ => True)|].
      intros _ _. apply quiet_exit. }
  destruct (nonblank (PStr x)); [|now apply quiet_ret].
  eapply quiet_bind; [apply quiet_str|]. intros b Hbm.
  eapply quiet_bind; [apply quiet_str|]. intros ? [= <-].
  eapply quiet_bind; [apply quiet_exists|]. intros ? ->.
  eapply quiet_bind; [apply quiet_exists|]. intros ? ->.
  assert (Hskip : quiet F
            (print "Cannot perform regression because binding matrix or expression datasets are missing";;
             ret (0, @None pyval)) (fun _ => True)).
  { eapply quiet_bind; [now apply quiet_print with (Q := fun _ => True)|].
    intros _ _. now apply quiet_ret. }
  destruct Hb as [-> | ->]; injection Hbm as <-; cbn [py_eq_str].
  - cbn. exact Hskip.
  - destruct (F pklfile) eqn:Ep, (F x) eqn:Ex;
      destruct (String.eqb pklfile ""); cbn [negb andb]; try exact Hskip.
    eapply quiet_bind with (Q := fun _ => True); [|intros [? ?] _; now apply quiet_ret].
    apply quiet_known with (a := (0, PStr (regression_file pklfile))); [|exact I].
    intros w Hfs. eexists. apply getTfsFromRegression_cached.
    rewrite Hfs. now apply (Hreg x).
Qed.

(** With every reachable output in place and the network export off, a run
    hands nothing to [os.system] and leaves the files as they are. *)
Lemma main_quiet args :
  quiet F (main progdir shell opts config args) (fun _ => True).
Proof.
  unfold main. destruct (negb _).
  { eapply quiet_bind; [now apply quiet_print with (Q := fun _ => True)|].
    intros _ _. apply quiet_exit. }
  eapply quiet_bind; [apply main_step1_quiet|]. intros ? ->.
  eapply quiet_bind; [apply main_step2_quiet|].
  intros [[[kr tamofile] genome] binding_out] [Hkr Hb]. cbn [fst snd] in Hkr, Hb. subst kr.
  eapply quiet_bind; [apply (main_step3_quiet _ _ Hb)|]. intros ? Hm.
  assert (Hm' : exists bm, a = (0, bm) /\ (bm = PStr "" \/ bm = PStr pklfile)).
  { destruct Hm as [-> | ->]; eauto. }
  destruct Hm' as (bm & -> & Hbm).
  eapply quiet_bind; [apply main_network_quiet|]. intros _ _.
  eapply quiet_bind; [apply (main_step4_quiet _ Hbm)|]. intros [kr tfs] _.
  now apply quiet_ret.
Qed.

End Cached.

(** ** Reading the configuration *)

Section Lookups.

Variable progdir : string.
Variable shell : string -> (string -> bool) -> Z * (string -> bool).
Variable opts : Options.
Variable config : ConfigParser.

Lemma bind_get {B} section option v (k : pyval -> M B) w :
  config_get config section option = Ret v ->
  bind (get config section option) k w = k v w.
Proof. intros H. unfold bind, get, lift. now rewrite H. Qed.

Lemma bind_get_or_default {B} section option d v (k : pyval -> M B) w :
  config_get config section option = Ret (PStr v) ->
  bind (get_or_default config section option d) k w = k (PStr v) w.
Proof. intros H. unfold bind, get_or_default, get, lift, ret. now rewrite H. Qed.

Lemma get_or_default_present section option d v w :
  config_get config section option = Ret (PStr v) ->
  get_or_default config section option d w = (Ret (PStr v), w).
Proof. intros H. unfold bind, get_or_default, get, lift, ret. now rewrite H. Qed.

Lemma bind_get_absent {B} section option (k : pyval -> M B) w :
  absent config section option ->
  exists r, bind (get config section option) k w = (r, w) /\ aborted r.
Proof.
  intros H. unfold bind, get, lift.
  destruct (config_get config section option) as [v| |e] eqn:E.
  - now destruct (H v).
  - now exists Exit.
  - now exists (Raise e).
Qed.

Lemma bind_get_or_default_absent {B} section option d (k : pyval -> M B) w :
  absent config section option ->
  exists r, bind (get_or_default config section option d) k w = (r, w) /\ aborted r.
Proof.
  intros H. unfold bind, get_or_default, get, lift.
  destruct (config_get config section option) as [v| |e] eqn:E.
  - now destruct (H v).
  - now exists Exit.
  - now exists (Raise e).
Qed.

(** A lookup either aborts the run on the spot or hands over a string. *)
Lemma bind_get_cases {B} section option (k : pyval -> M B) w :
  (exists r, bind (get config section option) k w = (r, w) /\ aborted r) \/
  (exists s, config_get config section option = Ret (PStr s) /\
             bind (get config section option) k w = k (PStr s) w).
Proof.
  destruct (config_get config section option) as [v| |e] eqn:E.
  - right. destruct (config_get_str _ _ _ _ E) as [s ->]. exists s.
    split; [reflexivity | now apply bind_get].
  - left. exists Exit. unfold bind, get, lift. now rewrite E.
  - left. exists (Raise e). unfold bind, get, lift. now rewrite E.
Qed.

End Lookups.

(** ** The claims *)

Section Claims.

Variable progdir : string.
Variable shell : string -> (string -> bool) -> Z * (string -> bool).

(** C8, as the script has it: called with any number of positional arguments
    other than one, [main] prints its one-line message and leaves through
    [sys.exit()], whatever the configuration and the options, having read no
    option and handed no command to [os.system]; the exit status of
    [sys.exit()] without an argument is 0. *)
Theorem C8_no_config_argument_exits_zero opts config (args : list string) w :
  List.length args <> 1%nat ->
  main progdir shell opts config args w
  = (Exit, log_line "Need a configuration file to provide experiment-level details" w)
  /\ calls (snd (main progdir shell opts config args w)) = calls w
  /\ exit_status (fst (main progdir shell opts config args w)) = 0.
Proof.
  intros H. unfold main.
  destruct (Nat.eqb_spec (List.length args) 1) as [E|E]; [contradiction|].
  run. repeat split.
Qed.

(** C3: the regression command ends with the threshold chosen as follows:
    the p-value threshold when it is a non-empty string, without the q-value
    flag; else the q-value threshold when it is a non-empty string, after
    the flag [--use-qval]; else [0.05] without the flag.  This command is
    the one [getTfsFromRegression] runs when the results file is not
    there. *)
Theorem C3_threshold_selection outdir pickle expr (pvalT qvalT : pyval) w :
  let base := "python " +:+ os_path_join progdir "motif_regression.py"
              +:+ " --outdir=" +:+ outdir +:+ " " +:+ pickle +:+ " " +:+ expr in
  let cmd := match pvalT, qvalT with
             | PStr (String a p), _ => base +:+ " --thresh=" +:+ String a p
             | _, PStr (String a q) =>
                 (base +:+ " --use-qval") +:+ " --thresh=" +:+ String a q
             | _, _ => base +:+ " --thresh=" +:+ "0.05"
             end in
  regression_cmd progdir outdir pickle expr pvalT qvalT w = (Ret cmd, w)
  /\ (outdir = regression_file pickle -> fs w outdir = false ->
      calls (snd (getTfsFromRegression progdir shell (PStr pickle) (PStr expr) pvalT qvalT w))
      = (calls w ++ [cmd])%list).
Proof.
  intros base cmd.
  assert (Hcmd : forall w', regression_cmd progdir outdir pickle expr pvalT qvalT w'
                            = (Ret cmd, w')).
  { intros w'. unfold regression_cmd. fold base. subst cmd.
    destruct pvalT as [|[|a p]]; destruct qvalT as [|[|b q]]; reflexivity. }
  split; [apply Hcmd|].
  intros -> Hf. unfold getTfsFromRegression. unfold regression_file in *. run.
  cbn [log_line fs]. rewrite Hf. run.
  rewrite (bind_Ret _ _ _ _ _ (Hcmd _)). run.
  rewrite (bind_Ret _ _ _ _ _ (os_system_run _ _ _)). reflexivity.
Qed.


Lemma print_exit_not_Ret {A} s (a : A) w w' :
  (print s ;; sys_exit) w <> (Ret a, w').
Proof. discriminate. Qed.

(** When step 1 lets the run go on, its status was 0 and its output is the
    events file of some directory. *)
Lemma main_step1_inv opts config w kr out w1 :
  main_step1 progdir shell opts config w = (Ret (kr, out), w1) ->
  kr = 0 /\ exists od, out = PStr (events_file od).
Proof.
  unfold main_step1. intros H.
  do 4 (apply bind_inv_Ret in H as (? & ? & _ & H)).
  apply bind_inv_Ret in H as ([res o] & w0 & Hmap & H).
  destruct (Z.eqb_spec res 0) as [->|Hne]; cbn [negb] in H.
  2:{ now apply print_exit_not_Ret in H. }
  unfold ret in H. injection H as <- <- <-.
  split; [reflexivity|].
  destruct (negb _ && negb _).
  - now apply mapGenesToRegions_outfile in Hmap.
  - now apply print_exit_not_Ret in Hmap.
Qed.

Lemma nonblank_events_file od : nonblank (PStr (events_file od)) = true.
Proof.
  unfold nonblank. cbn [is_None py_eq_str negb andb].
  now rewrite (eqb_empty_false _ (events_file_nonempty od)).
Qed.

(** Splits on a lookup at the head of the run: it aborts there, or the run
    goes on with the string [s] it found. *)
Ltac lookup_or_abort s Hs :=
  match goal with
  | |- exists r, bind (get ?c ?sec ?o) ?k ?w = _ /\ _ =>
      let Hr := fresh "Hr" in
      destruct (bind_get_cases c sec o k w) as [Hr | (s & Hs & ->)]; [exact Hr|]
  end.

(** C4: when the gene annotation, the cross-reference, the bed file or the
    window size cannot be read from the configuration, the run does not
    return normally (the lookup raises, or the argument check has already
    left), no command has been handed to [os.system] and the files are as
    they were. *)
Theorem C4_missing_chromatin_input_aborts opts config (args : list string) w :
  absent config "chromatinData" "genefile" \/
  absent config "chromatinData" "xreffile" \/
  absent config "chromatinData" "bedfile" \/
  absent config "chromatinData" "windowsize" ->
  exists r w',
    main progdir shell opts config args w = (r, w') /\
    aborted r /\ calls w' = calls w /\ fs w' = fs w.
Proof.
  intros Habs. unfold main.
  destruct (negb (Nat.eqb (List.length args) 1)).
  { run. do 2 eexists. split; [reflexivity|]. cbn. auto. }
  assert (Hstep : exists r, main_step1 progdir shell opts config w = (r, w) /\ aborted r).
  { unfold main_step1.
    lookup_or_abort g Hg. lookup_or_abort b Hb. lookup_or_abort x Hx.
    apply bind_get_or_default_absent.
    destruct Habs as [H | [H | [H | H]]];
      [ now destruct (H _ Hg) | now destruct (H _ Hx) | now destruct (H _ Hb) | exact H ]. }
  destruct Hstep as (r & Hr & Hab).
  exists (match r with Ret _ => Exit | Exit => Exit | Raise e => Raise e end), w.
  unfold bind at 1. rewrite Hr.
  destruct r; [contradiction | |]; cbn; auto.
Qed.

(** [main] with its one argument, once step 1 has let it through. *)
Lemma main_after_step1 opts config (f : string) w kr outfile w1 :
  main_step1 progdir shell opts config w = (Ret (kr, outfile), w1) ->
  main progdir shell opts config [f] w
  = (let* (keeprunning, tamofile, genome, binding_out) :=
       main_step2 progdir shell config kr outfile in
     let* (keeprunning, binding_matrix) :=
       main_step3 progdir shell keeprunning outfile tamofile binding_out in
     main_network progdir shell opts config genome binding_matrix ;;
     let* (keeprunning, tfs) := main_step4 progdir shell config keeprunning binding_matrix in
     ret {| art_outfile := outfile;
            art_binding_out := binding_out;
            art_binding_matrix := binding_matrix;
            art_tfs := tfs |}) w1.
Proof.
  intros H. unfold main. cbn [List.length Nat.eqb negb].
  now rewrite (bind_Ret _ _ _ _ _ H).
Qed.

(** C9: when the test that guards the motif scan fails (an empty
    [tamo_file] or [fastafile]), step 2 assigns nothing to [binding_out],
    and the run, having passed step 1, stops at the test of step 3 with an
    unbound-local error on [binding_out]; steps 2 and 3 are not skipped with
    an empty reference. *)
Theorem C9_unbound_binding_out opts config (f : string) w kr outfile w1
    tamofile genome numthreads fastafile :
  main_step1 progdir shell opts config w = (Ret (kr, outfile), w1) ->
  config_get config "motifData" "tamo_file" = Ret tamofile ->
  config_get config "motifData" "genome" = Ret genome ->
  config_get config "motifData" "numthreads" = Ret numthreads ->
  config_get config "chromatinData" "fastafile" = Ret fastafile ->
  nonblank tamofile && negb (is_None genome) && nonblank fastafile = false ->
  main_step2 progdir shell config kr outfile w1 = (Ret (kr, tamofile, genome, None), w1)
  /\ main progdir shell opts config [f] w = (Raise (UnboundLocalError "binding_out"), w1).
Proof.
  intros H1 Ht Hg Hn Hf Hgate.
  destruct (config_get_str _ _ _ _ Hn) as [n ->].
  assert (H2 : main_step2 progdir shell config kr outfile w1
               = (Ret (kr, tamofile, genome, None), w1)).
  { unfold main_step2.
    rewrite (bind_get _ _ _ _ _ _ Ht), (bind_get _ _ _ _ _ _ Hg),
      (bind_get_or_default _ _ _ _ _ _ _ Hn), (bind_get _ _ _ _ _ _ Hf).
    now rewrite Hgate. }
  split; [exact H2|].
  rewrite (main_after_step1 _ _ _ _ _ _ _ H1), (bind_Ret _ _ _ _ _ H2).
  destruct (main_step1_inv _ _ _ _ _ _ H1) as (-> & od & ->).
  unfold main_step3. run. now rewrite nonblank_events_file.
Qed.


(** C2: when a required stage returns a status other than 0, [main] prints
    the error line of that stage and leaves through [sys.exit()] in the
    world the stage left, so no command follows: (1) the gene-region
    mapping, after which nothing at all has run but the mapping; (2) the
    motif scan; (3) the binding matrix. *)
Theorem C2_failed_stage_stops_run opts config (f : string) w :
  (forall g b x win res out w1,
      config_get config "chromatinData" "genefile" = Ret (PStr g) ->
      config_get config "chromatinData" "bedfile" = Ret (PStr b) ->
      config_get config "chromatinData" "xreffile" = Ret (PStr x) ->
      config_get config "chromatinData" "windowsize" = Ret (PStr win) ->
      mapGenesToRegions progdir shell (PStr g) (PStr x) (PStr b) (PStr win) (opt_outdir opts) w
      = (Ret (res, out), w1) ->
      res <> 0 ->
      main progdir shell opts config [f] w
      = (Exit, log_line "Error running gene mapping step, check your files and try again" w1)
      /\ calls (snd (main progdir shell opts config [f] w)) = calls w1)
  /\ (forall kr outfile w1 t g n fa res out w2,
         main_step1 progdir shell opts config w = (Ret (kr, outfile), w1) ->
         config_get config "motifData" "tamo_file" = Ret (PStr t) ->
         config_get config "motifData" "genome" = Ret (PStr g) ->
         config_get config "motifData" "numthreads" = Ret (PStr n) ->
         config_get config "chromatinData" "fastafile" = Ret (PStr fa) ->
         t <> "" -> fa <> "" ->
         fs w1 t = true -> fs w1 fa = true ->
         motifScanning progdir shell (PStr t) (PStr fa) (PStr n) (PStr g) outfile w1
         = (Ret (res, out), w2) ->
         res <> 0 ->
         main progdir shell opts config [f] w
         = (Exit, log_line "Error running motif-scanning step, check your files and try again" w2)
         /\ calls (snd (main progdir shell opts config [f] w)) = calls w2)
  /\ (forall kr o w1 kr2 tamofile genome bo w2 res out w3,
         main_step1 progdir shell opts config w = (Ret (kr, PStr o), w1) ->
         main_step2 progdir shell config kr (PStr o) w1
         = (Ret (kr2, tamofile, genome, Some bo), w2) ->
         nonblank bo = true ->
         createBindingMatrix progdir shell bo (PStr o) (PStr (re_sub ".xls" ".fsa" o))
                             tamofile false w2
         = (Ret (res, out), w3) ->
         res <> 0 ->
         main progdir shell opts config [f] w
         = (Exit, log_line "Error running matrix creation step, check your files and try again" w3)
         /\ calls (snd (main progdir shell opts config [f] w)) = calls w3).
Proof.
  split; [|split].
  - intros g b x win res out w1 Hg Hb Hx Hw Hmap Hres.
    assert (H : main progdir shell opts config [f] w
                = (Exit, log_line "Error running gene mapping step, check your files and try again" w1)).
    { unfold main. cbn [List.length Nat.eqb negb]. unfold main_step1.
      unfold bind at 1.
      rewrite (bind_get _ _ _ _ _ _ Hg), (bind_get _ _ _ _ _ _ Hb),
        (bind_get _ _ _ _ _ _ Hx), (bind_get_or_default _ _ _ _ _ _ _ Hw).
      cbn [is_None negb andb]. rewrite (bind_Ret _ _ _ _ _ Hmap).
      apply Z.eqb_neq in Hres. rewrite Hres. reflexivity. }
    now rewrite H.
  - intros kr outfile w1 t g n fa res out w2 H1 Ht Hg Hn Hf Hte Hfe Het Hef Hscan Hres.
    assert (H : main progdir shell opts config [f] w
                = (Exit, log_line "Error running motif-scanning step, check your files and try again" w2)).
    { rewrite (main_after_step1 _ _ _ _ _ _ _ H1). unfold main_step2.
      unfold bind at 1.
      rewrite (bind_get _ _ _ _ _ _ Ht), (bind_get _ _ _ _ _ _ Hg),
        (bind_get_or_default _ _ _ _ _ _ _ Hn), (bind_get _ _ _ _ _ _ Hf).
      unfold nonblank. cbn [is_None py_eq_str negb andb].
      rewrite (eqb_empty_false _ Hte), (eqb_empty_false _ Hfe). run.
      rewrite Het, Hef. cbn [andb]. rewrite (bind_Ret _ _ _ _ _ Hscan).
      apply Z.eqb_neq in Hres. rewrite Hres. reflexivity. }
    now rewrite H.
  - intros kr o w1 kr2 tamofile genome bo w2 res out w3 H1 H2 Hbo Hmat Hres.
    assert (H : main progdir shell opts config [f] w
                = (Exit, log_line "Error running matrix creation step, check your files and try again" w3)).
    { rewrite (main_after_step1 _ _ _ _ _ _ _ H1), (bind_Ret _ _ _ _ _ H2).
      destruct (main_step1_inv _ _ _ _ _ _ H1) as (-> & od & [= ->]).
      unfold main_step3. unfold bind at 1. run. rewrite nonblank_events_file.
      unfold bind, ret. rewrite Hbo, Hmat.
      apply Z.eqb_neq in Hres. rewrite Hres. reflexivity. }
    now rewrite H.
Qed.

(** C1, as the script has it.  Each of the four stages that has an output
    file returns status 0 and the path, handing nothing to [os.system] and
    leaving the files alone, when that file is already there (for step 1,
    with the directory that holds it).  The network export has no output
    file and no such test.  Hence, when the network export is off and every
    stage the run can reach finds its output, a run hands nothing to
    [os.system] and leaves the files as they are, and running again from the
    world it leaves gives the same outcome, final paths included, again
    with no command. *)
Theorem C1_cached_stages_skip_and_rerun_is_quiet :
  (forall g x b win outdir w,
      let od := mapping_outdir b win outdir in
      fs w od = true -> fs w (events_file od) = true ->
      exists w',
        mapGenesToRegions progdir shell (PStr g) (PStr x) (PStr b) (PStr win) outdir w
        = (Ret (0, PStr (events_file od)), w')
        /\ calls w' = calls w /\ fs w' = fs w)
  /\ (forall tamo fasta numthreads genome closest w,
         let out := if String.eqb closest ""
                    then re_sub ".fasta" "_with_motifs.txt" fasta
                    else motif_file closest in
         fs w out = true ->
         exists w',
           motifScanning progdir shell tamo (PStr fasta) numthreads genome (PStr closest) w
           = (Ret (0, PStr out), w')
           /\ calls w' = calls w /\ fs w' = fs w)
  /\ (forall motif_binding_out outfile fasta tamo w,
         fs w (pkl_file motif_binding_out) = true ->
         exists w',
           createBindingMatrix progdir shell (PStr motif_binding_out) (PStr outfile)
                               (PStr fasta) (PStr tamo) false w
           = (Ret (0, PStr (pkl_file motif_binding_out)), w')
           /\ calls w' = calls w /\ fs w' = fs w)
  /\ (forall pickle expr pvalT qvalT w,
         fs w (regression_file pickle) = true ->
         exists w',
           getTfsFromRegression progdir shell (PStr pickle) expr pvalT qvalT w
           = (Ret (0, PStr (regression_file pickle)), w')
           /\ calls w' = calls w /\ fs w' = fs w)
  /\ (forall opts config args w,
         outputs_cached opts config w ->
         network_off config ->
         exists r w',
           main progdir shell opts config args w = (r, w')
           /\ calls w' = calls w /\ fs w' = fs w
           /\ exists w'',
               main progdir shell opts config args w' = (r, w'')
               /\ calls w'' = calls w).
Proof.
  repeat split.
  - intros g x b win outdir w od Hd Hf. eexists. split.
    + now apply mapGenesToRegions_cached.
    + split; reflexivity.
  - intros tamo fasta numthreads genome closest w out Hf. eexists. split.
    + now apply motifScanning_cached.
    + split; reflexivity.
  - intros m o fa t w Hf. eexists. split.
    + now apply createBindingMatrix_cached.
    + split; reflexivity.
  - intros p x pv qv w Hf. eexists. split.
    + now apply getTfsFromRegression_cached.
    + split; reflexivity.
  - intros opts config args w (b & win & Hb & Hw & Hd & Ho & Hm & Hr) Hnet.
    pose proof (main_quiet progdir shell opts config (fs w) b win Hb Hw Hd Ho Hm Hr Hnet args)
      as Hq.
    destruct (Hq w eq_refl) as (Hf1 & Hc1 & _).
    destruct (Hq (snd (main progdir shell opts config args w)) Hf1) as (Hf2 & Hc2 & _).
    destruct (fs_pure_main progdir shell opts config args
                (snd (main progdir shell opts config args w)) w Hf1) as [Hr2 _].
    destruct (main progdir shell opts config args w) as [r w'] eqn:E1.
    cbn [fst snd] in *.
    destruct (main progdir shell opts config args w') as [r2 w''] eqn:E2.
    cbn [fst snd] in *. subst r2.
    exists r, w'. repeat split; try assumption.
    exists w''. split; [exact E2 | congruence].
Qed.

(** A configured expression file that is not on disk: step 4 prints that it
    cannot run the regression, runs nothing and keeps the status. *)
Lemma main_step4_expression_file_missing config binding_matrix x pv qv w :
  config_get config "expressionData" "expressionFile" = Ret (PStr x) ->
  config_get config "expressionData" "pvalThresh" = Ret pv ->
  config_get config "expressionData" "qvalThresh" = Ret qv ->
  x <> "" -> fs w x = false ->
  main_step4 progdir shell config 0 (PStr binding_matrix) w
  = (Ret (0, None),
     log_line "Cannot perform regression because binding matrix or expression datasets are missing" w).
Proof.
  intros Hx Hpv Hqv Hne Hf. unfold main_step4.
  rewrite (bind_get _ _ _ _ _ _ Hx), (bind_get _ _ _ _ _ _ Hpv), (bind_get _ _ _ _ _ _ Hqv).
  unfold nonblank. cbn [is_None py_eq_str negb andb].
  rewrite (eqb_empty_false _ Hne). cbn [negb].
  cbv beta iota delta [bind ret os_path_exists str_]. rewrite Hf, andb_false_r. reflexivity.
Qed.

(** An expression key that cannot be read stops step 4 with the lookup
    error, before the test on the expression file. *)
Lemma main_step4_expression_key_absent config kr binding_matrix w :
  absent config "expressionData" "expressionFile" ->
  exists r, main_step4 progdir shell config kr binding_matrix w = (r, w) /\ aborted r.
Proof. intros H. unfold main_step4. now apply bind_get_absent. Qed.




End Claims.

(** ** The claims on sample runs *)

(** A second run over a full cache with the network export on: the export
    command goes to [os.system] again, though every output file of the
    first run is still there. *)
Lemma C1_network_export_runs_again :
  let run1 := main "scripts" (shell_status 0) opts_ex config_network ["garnet.cfg"] world_cached in
  let run2 := main "scripts" (shell_status 0) opts_ex config_network ["garnet.cfg"] (snd run1) in
  outputs_cached opts_ex config_network (snd run1)
  /\ fst run2 = fst run1
  /\ calls (snd run2)
     = (calls (snd run1)
        ++ ["python scripts/zipTgms.py --pkl=peakseventsWithin2000/events_to_genes_with_motifs.pkl --genome hg19 --as-network --tf-delimiter=."])%list
  /\ calls (snd run2) <> calls (snd run1).
Proof.
  cbv zeta. split; [|split; [|split]].
  - exists "peaks.bed", "2000". repeat split; intros; vm_compute; reflexivity.
  - vm_compute. reflexivity.
  - vm_compute. reflexivity.
  - vm_compute. discriminate.
Qed.

Lemma C1_rerun_witness :
  exists r w',
    main "scripts" (shell_status 0) opts_ex config_ex ["garnet.cfg"] world_cached = (r, w')
    /\ calls w' = calls world_cached /\ fs w' = fs world_cached
    /\ exists w'',
        main "scripts" (shell_status 0) opts_ex config_ex ["garnet.cfg"] w' = (r, w'')
        /\ calls w'' = calls world_cached.
Proof.
  destruct (C1_cached_stages_skip_and_rerun_is_quiet "scripts" (shell_status 0))
    as (_ & _ & _ & _ & H).
  apply H.
  - exists "peaks.bed", "2000". repeat split; intros; vm_compute; reflexivity.
  - intros v Hv. vm_compute in Hv. injection Hv as <-. reflexivity.
Defined.

Lemma C2_mapping_failure_witness :
  let w1 := snd (mapGenesToRegions "scripts" (shell_status 1) (PStr "genes.txt") (PStr "xref.txt")
                   (PStr "peaks.bed") (PStr "2000") PNone world_fresh) in
  main "scripts" (shell_status 1) opts_ex config_ex ["garnet.cfg"] world_fresh
  = (Exit, log_line "Error running gene mapping step, check your files and try again" w1)
  /\ calls (snd (main "scripts" (shell_status 1) opts_ex config_ex ["garnet.cfg"] world_fresh))
     = calls w1.
Proof.
  destruct (C2_failed_stage_stops_run "scripts" (shell_status 1) opts_ex config_ex
              "garnet.cfg" world_fresh) as (H & _ & _).
  apply (H "genes.txt" "peaks.bed" "xref.txt" "2000" 1
           (PStr "peakseventsWithin2000/events_to_genes.xls"));
    try (vm_compute; reflexivity).
  discriminate.
Defined.

Lemma C3_threshold_witness :
  calls (snd (getTfsFromRegression "scripts" (shell_status 0) (PStr "m.pkl") (PStr "expr.txt")
                (PStr "") (PStr "0.1") world_fresh))
  = ["python scripts/motif_regression.py --outdir=mregression_results.xls m.pkl expr.txt --use-qval --thresh=0.1"].
Proof.
  apply (proj2 (C3_threshold_selection "scripts" (shell_status 0) "mregression_results.xls"
                  "m.pkl" "expr.txt" (PStr "") (PStr "0.1") world_fresh));
    vm_compute; reflexivity.
Defined.

Lemma C4_no_window_witness :
  exists r w',
    main "scripts" (shell_status 0) opts_ex config_no_window ["garnet.cfg"] world_fresh = (r, w')
    /\ aborted r /\ calls w' = calls world_fresh /\ fs w' = fs world_fresh.
Proof.
  apply C4_missing_chromatin_input_aborts.
  right. right. right. intros v. vm_compute. discriminate.
Defined.




(** Without a configuration argument the exit status is 0. *)
Lemma C8_exit_status_is_zero :
  ~ exit_status (fst (main "scripts" (shell_status 0) opts_ex config_ex [] world_fresh)) <> 0.
Proof. vm_compute. intros H. now apply H. Qed.

Lemma C8_no_argument_witness :
  main "scripts" (shell_status 0) opts_ex config_ex [] world_fresh
  = (Exit, log_line "Need a configuration file to provide experiment-level details" world_fresh)
  /\ calls (snd (main "scripts" (shell_status 0) opts_ex config_ex [] world_fresh))
     = calls world_fresh
  /\ exit_status (fst (main "scripts" (shell_status 0) opts_ex config_ex [] world_fresh)) = 0.
Proof.
  apply C8_no_config_argument_exits_zero. cbn. discriminate.
Defined.

Lemma C9_blank_tamo_witness :
  let w1 := snd (main_step1 "scripts" (shell_status 0) opts_ex config_blank_tamo world_fresh) in
  main_step2 "scripts" (shell_status 0) config_blank_tamo 0
             (PStr "peakseventsWithin2000/events_to_genes.xls") w1
  = (Ret (0, PStr "", PStr "hg19", None), w1)
  /\ main "scripts" (shell_status 0) opts_ex config_blank_tamo ["garnet.cfg"] world_fresh
     = (Raise (UnboundLocalError "binding_out"), w1).
Proof.
  intros w1.
  apply (C9_unbound_binding_out "scripts" (shell_status 0) opts_ex config_blank_tamo
           "garnet.cfg" world_fresh 0 (PStr "peakseventsWithin2000/events_to_genes.xls") w1
           (PStr "") (PStr "hg19") (PStr "4") (PStr "peaks.fasta"));
    vm_compute; reflexivity.
Defined.



(** C6 at a configuration without the [expressionFile] line: the three
    stages run, then the lookup of the expression file raises, and the run
    ends with an uncaught exception instead of skipping the regression. *)
Theorem C6_missing_expression_key_raises :
  let run := main "scripts" (shell_status 0) opts_ex config_no_expression ["garnet.cfg"]
                  world_fresh in
  fst run = Raise (NoOptionError "expressionfile" "expressionData")
  /\ exit_status (fst run) = 1
  /\ List.length (calls (snd run)) = 4%nat.
Proof. cbv zeta. repeat split; vm_compute; reflexivity. Qed.

(** C5 at a configuration that names the motif library, the genome and
    the sequence file but has no [numthreads] line, on a directory where
    the motif library is missing: step 1 runs, then the lookup of
    [numthreads] raises before the test on the two files is reached.  The
    run ends with an uncaught exception; the warning of the skipped stage
    is not printed and no later stage is reached. *)
Theorem C5_missing_numthreads_raises :
  let run := main "scripts" (shell_status 0) opts_ex config_no_numthreads ["garnet.cfg"]
                  world_no_tamo in
  config_get config_no_numthreads "motifData" "tamo_file" = Ret (PStr "motifs.tamo")
  /\ config_get config_no_numthreads "motifData" "genome" = Ret (PStr "hg19")
  /\ config_get config_no_numthreads "chromatinData" "fastafile" = Ret (PStr "peaks.fasta")
  /\ fs world_no_tamo "motifs.tamo" = false
  /\ fst run = Raise (NoOptionError "numthreads" "motifData")
  /\ exit_status (fst run) = 1
  /\ List.length (calls (snd run)) = 2%nat
  /\ ~ In "Missing FASTA file or TAMO file - check your config file and try again."
        (stdout (snd run)).
Proof.
  cbv zeta. repeat split; try (vm_compute; reflexivity).
  vm_compute. intros [H|[H|[H|[]]]]; discriminate.
Qed.

(** ** Sample evaluations *)

Example basename_ex : basename "data/peaks.v2.bed" = "peaks.v2.bed".
Proof. reflexivity. Qed.

Example splitext_ex : splitext_root "peaks.v2.bed" = "peaks.v2".
Proof. reflexivity. Qed.

Example splitext_hidden : splitext_root "..bed" = "..bed".
Proof. reflexivity. Qed.

Example join_ex : os_path_join "scripts" "../src/" = "scripts/../src/".
Proof. reflexivity. Qed.

Example join_empty : os_path_join "" "zipTgms.py" = "zipTgms.py".
Proof. reflexivity. Qed.

Example re_sub_ex :
  re_sub ".xls" ".fsa" "out/events_to_genes.xls" = "out/events_to_genes.fsa".
Proof. reflexivity. Qed.

Example lower_ex : lower "expressionFile" = "expressionfile".
Proof. reflexivity. Qed.

(** The configuration of the docstring on a fresh directory: the directory
    is made, three stages run, and the regression is skipped because the
    tools of the sample world write no pickled matrix. *)
Example fresh_run :
  let run := main "scripts" (shell_status 0) opts_ex config_ex ["garnet.cfg"] world_fresh in
  fst run
  = Ret {| art_outfile := PStr "peakseventsWithin2000/events_to_genes.xls";
           art_binding_out := Some (PStr "peakseventsWithin2000/events_to_genes_with_motifs.txt");
           art_binding_matrix := PStr "peakseventsWithin2000/events_to_genes_with_motifs.pkl";
           art_tfs := None |}
  /\ List.length (calls (snd run)) = 4%nat
  /\ calls (snd run) !! 0%nat = Some "mkdir peakseventsWithin2000".
Proof. cbv zeta. repeat split; vm_compute; reflexivity. Qed.

(** An expression file that is configured but not on disk: the run
    completes, the regression is skipped. *)
Example expression_file_not_on_disk :
  let w0 := world_of (["peaks.bed"; "peaks.fasta"; "genes.txt"; "xref.txt"; "motifs.tamo"]
                      ++ outputs_ex) in
  let run := main "scripts" (shell_status 0) opts_ex config_ex ["garnet.cfg"] w0 in
  (exists arts, fst run = Ret arts /\ art_tfs arts = None)
  /\ calls (snd run) = []
  /\ last (stdout (snd run))
     = Some "Cannot perform regression because binding matrix or expression datasets are missing".
Proof.
  cbv zeta. split; [|split]; [eexists; split|..]; vm_compute; reflexivity.
Qed.

(** A path given with [--outdir Xpkl] reaches the regression step, where
    both the directory and the extension are rewritten. *)
Example outdir_rewritten_by_regression_name :
  let opts := {| opt_outdir := PStr "Xpkl"; opt_allgenes := false |} in
  let w0 := world_of (inputs_ex ++ ["Xpkl/events_to_genes_with_motifs.pkl"]) in
  exists arts,
    fst (main "scripts" (shell_status 0) opts config_ex ["garnet.cfg"] w0) = Ret arts
    /\ art_tfs arts
       = Some (PStr "regression_results.xls/events_to_genes_with_motifsregression_results.xls").
Proof. cbv zeta. eexists. split; vm_compute; reflexivity. Qed.

(** * Further properties of the script *)

(** ** Paths and substitution *)

Lemma re_sub_no_occurrence pat repl s :
  occurs pat s = false -> re_sub pat repl s = s.
Proof.
  induction s as [|c s IH]; [reflexivity|].
  cbn [occurs]. intros H. apply orb_false_elim in H as [Hm Ho].
  rewrite (re_sub_no_match _ _ _ _ Hm). now rewrite IH.
Qed.

Lemma re_sub_app pat repl a b :
  starts_in pat a b = false ->
  re_sub pat repl (a +:+ b) = a +:+ re_sub pat repl b.
Proof.
  induction a as [|c a IH]; [reflexivity|].
  cbn [starts_in]. intros H. apply orb_false_elim in H as [Hm Hs].
  change (String c a +:+ b) with (String c (a +:+ b)) in *.
  rewrite (re_sub_no_match _ _ _ _ Hm). now rewrite (IH Hs).
Qed.

(** A pattern of a wildcard and three characters, none of them a slash,
    cannot match across the slash that ends a directory name. *)
Lemma starts_in_before_slash p0 c1 c2 c3 a b :
  Ascii.eqb c1 "/" = false -> Ascii.eqb c2 "/" = false -> Ascii.eqb c3 "/" = false ->
  Ascii.eqb c1 "." = false -> Ascii.eqb c2 "." = false -> Ascii.eqb c3 "." = false ->
  let pat := String p0 (String c1 (String c2 (String c3 ""))) in
  occurs pat a = false ->
  starts_in pat a (String "/" b) = false.
Proof.
  intros H1 H2 H3 D1 D2 D3 pat. subst pat.
  induction a as [|x a IH]; [reflexivity|].
  cbn [occurs starts_in]. intros H. apply orb_false_elim in H as [Hm Ho].
  rewrite (IH Ho), orb_false_r. clear IH Ho.
  destruct a as [|y1 [|y2 [|y3 r]]];
    cbv beta iota delta [String.append match_here] in Hm |- *;
    try exact Hm;
    rewrite ?D1, ?D2, ?D3, ?H1, ?H2, ?H3, ?andb_false_r; reflexivity.
Qed.

(** With an output directory whose name holds no match of the four
    patterns, every derived name stays in that directory and only the
    extension of the file changes: the substitutions of steps 2, 3 and 4
    and of [main] compose as intended. *)
Theorem names_stay_in_outdir od :
  occurs ".xls" od = false -> occurs ".txt" od = false ->
  occurs ".tgm" od = false -> occurs ".pkl" od = false ->
  motif_file (events_file od) = od +:+ "/events_to_genes_with_motifs.txt"
  /\ re_sub ".xls" ".fsa" (events_file od) = od +:+ "/events_to_genes.fsa"
  /\ pkl_file (motif_file (events_file od)) = od +:+ "/events_to_genes_with_motifs.pkl"
  /\ regression_file (pkl_file (motif_file (events_file od)))
     = od +:+ "/events_to_genes_with_motifsregression_results.xls".
Proof.
  intros Hxls Htxt Htgm Hpkl.
  assert (Hm : motif_file (events_file od) = od +:+ "/events_to_genes_with_motifs.txt").
  { unfold motif_file, events_file. rewrite re_sub_app; [reflexivity|].
    now apply (starts_in_before_slash "." "x" "l" "s"). }
  assert (Hp : pkl_file (od +:+ "/events_to_genes_with_motifs.txt")
               = od +:+ "/events_to_genes_with_motifs.pkl").
  { unfold pkl_file.
    rewrite (re_sub_app ".txt"); [|now apply (starts_in_before_slash "." "t" "x" "t")].
    change (re_sub ".txt" ".tgm" "/events_to_genes_with_motifs.txt")
      with "/events_to_genes_with_motifs.tgm".
    rewrite (re_sub_app ".tgm"); [reflexivity|].
    now apply (starts_in_before_slash "." "t" "g" "m"). }
  split; [exact Hm|]. split.
  { unfold events_file. rewrite re_sub_app; [reflexivity|].
    now apply (starts_in_before_slash "." "x" "l" "s"). }
  rewrite Hm, Hp. split; [reflexivity|].
  unfold regression_file. rewrite re_sub_app; [reflexivity|].
  now apply (starts_in_before_slash "." "p" "k" "l").
Qed.

Lemma names_stay_in_outdir_witness :
  motif_file (events_file "out") = "out/events_to_genes_with_motifs.txt"
  /\ re_sub ".xls" ".fsa" (events_file "out") = "out/events_to_genes.fsa"
  /\ pkl_file (motif_file (events_file "out")) = "out/events_to_genes_with_motifs.pkl"
  /\ regression_file (pkl_file (motif_file (events_file "out")))
     = "out/events_to_genes_with_motifsregression_results.xls".
Proof. apply (names_stay_in_outdir "out"); reflexivity. Defined.

(** ** What a computation returns *)

Lemma returns_bind {A B} (m : M A) (k : A -> M B) (Q : A -> Prop) (R : B -> Prop) :
  returns m Q -> (forall a, Q a -> returns (k a) R) -> returns (bind m k) R.
Proof.
  intros Hm Hk w b w2 H. apply bind_inv_Ret in H as (a & w1 & H1 & H2).
  exact (Hk a (Hm _ _ _ H1) _ _ _ H2).
Qed.

Lemma returns_any {A} (m : M A) : returns m (fun _ => True).
Proof. now intros w a w' _. Qed.

Lemma returns_bind_any {A B} (m : M A) (k : A -> M B) (R : B -> Prop) :
  (forall a, returns (k a) R) -> returns (bind m k) R.
Proof. intros Hk. eapply returns_bind; [apply returns_any | auto]. Qed.

Lemma returns_weaken {A} (m : M A) (Q R : A -> Prop) :
  returns m Q -> (forall a, Q a -> R a) -> returns m R.
Proof. intros Hm HQR w a w' H. eauto. Qed.

Lemma returns_ret {A} (a : A) (Q : A -> Prop) : Q a -> returns (ret a) Q.
Proof. intros Ha w b w' [= <- _]. exact Ha. Qed.

Lemma returns_raise {A} e (Q : A -> Prop) : returns (raise e) Q.
Proof. intros w a w'. discriminate. Qed.

Lemma returns_exit {A} (Q : A -> Prop) : returns sys_exit Q.
Proof. intros w a w'. discriminate. Qed.

Lemma returns_str v : returns (str_ v) (fun s => v = PStr s).
Proof. destruct v; [apply returns_raise | now apply returns_ret]. Qed.

Lemma returns_path v : returns (path_ v) (fun s => v = PStr s).
Proof. destruct v; [apply returns_raise | now apply returns_ret]. Qed.

Lemma returns_local name v : returns (local name v) (fun x => v = Some x).
Proof. destruct v; [now apply returns_ret | apply returns_raise]. Qed.

Lemma returns_re_sub pat repl v :
  returns (re_sub_ pat repl v) (fun s => exists t, v = PStr t /\ s = re_sub pat repl t).
Proof. destruct v; [apply returns_raise | apply returns_ret; eauto]. Qed.

Lemma returns_get config section option :
  returns (get config section option)
          (fun v => exists s, v = PStr s /\ config_get config section option = Ret (PStr s)).
Proof.
  intros w v w'. unfold get, lift. intros [= H _].
  destruct (config_get_str _ _ _ _ H) as [s ->]. eauto.
Qed.

Lemma returns_get_or_default config section option d :
  returns (get_or_default config section option d)
          (fun v => exists s, v = PStr s /\ config_get config section option = Ret (PStr s)).
Proof.
  unfold get_or_default. eapply returns_bind; [apply returns_get|].
  intros v (s & -> & Hs). apply returns_ret. cbn. eauto.
Qed.

(** Walks down a computation whose result does not depend on what the
    steps before the last one returned. *)
Ltac returns_tac :=
  repeat first
    [ apply returns_ret
    | apply returns_raise
    | apply returns_exit
    | apply returns_bind_any; intros
    | match goal with
      | |- returns (if ?b then _ else _) _ => destruct b
      | |- returns (match ?x with _ => _ end) _ => destruct x
      end ].

Section StagePaths.

Variable progdir : string.
Variable shell : string -> (string -> bool) -> Z * (string -> bool).

Lemma returns_mapGenesToRegions g x b win outdir :
  returns (mapGenesToRegions progdir shell g x (PStr b) (PStr win) outdir)
          (fun r => r.2 = PStr (events_file (mapping_outdir b win outdir))).
Proof.
  unfold mapGenesToRegions.
  eapply returns_bind with (Q := fun od => od = mapping_outdir b win outdir).
  - destruct outdir as [|d]; cbn [is_None mapping_outdir]; run;
      now apply returns_ret.
  - intros ? ->. returns_tac; reflexivity.
Qed.

Lemma returns_motifScanning t f n g c :
  c <> "" ->
  returns (motifScanning progdir shell t f n g (PStr c))
          (fun r => r.2 = PStr (motif_file c)).
Proof.
  intros Hc. unfold motifScanning. cbn [py_eq_str].
  rewrite (eqb_empty_false _ Hc).
  eapply returns_bind; [apply returns_re_sub|]. intros ? (? & [= <-] & ->).
  returns_tac; reflexivity.
Qed.

Lemma returns_createBindingMatrix m o f t u :
  returns (createBindingMatrix progdir shell (PStr m) o f t u)
          (fun r => r.2 = PStr (pkl_file m)).
Proof.
  unfold createBindingMatrix.
  eapply returns_bind with (Q := fun r => r.2 = re_sub ".txt" ".tgm" m).
  - destruct u.
    + apply returns_bind_any. intros tfs.
      eapply returns_bind; [apply returns_re_sub|]. intros ? (? & [= <-] & ->).
      now apply returns_ret.
    + eapply returns_bind; [apply returns_re_sub|]. intros ? (? & [= <-] & ->).
      apply returns_bind_any. intros tfs. now apply returns_ret.
  - intros [tfs matfile] Hm. cbn [snd] in Hm. subst matfile.
    returns_tac; reflexivity.
Qed.

Lemma returns_getTfsFromRegression p x pv qv :
  returns (getTfsFromRegression progdir shell (PStr p) x pv qv)
          (fun r => r.2 = PStr (regression_file p)).
Proof.
  unfold getTfsFromRegression.
  eapply returns_bind; [apply returns_re_sub|]. intros ? (? & [= <-] & ->).
  returns_tac; reflexivity.
Qed.

End StagePaths.

(** ** The paths a completed run hands back *)

Section RunPaths.

Variable progdir : string.
Variable shell : string -> (string -> bool) -> Z * (string -> bool).
Variable opts : Options.
Variable config : ConfigParser.

Lemma returns_main_step1 :
  returns (main_step1 progdir shell opts config)
          (fun r => r.1 = 0 /\
                    exists b win,
                      config_get config "chromatinData" "bedfile" = Ret (PStr b) /\
                      config_get config "chromatinData" "windowsize" = Ret (PStr win) /\
                      r.2 = PStr (events_file (mapping_outdir b win (opt_outdir opts)))).
Proof.
  unfold main_step1.
  eapply returns_bind; [apply returns_get|]. intros ? (g & -> & Hg).
  eapply returns_bind; [apply returns_get|]. intros ? (b & -> & Hb).
  eapply returns_bind; [apply returns_get|]. intros ? (x & -> & Hx).
  eapply returns_bind; [apply returns_get_or_default|]. intros ? (win & -> & Hw).
  cbn [is_None negb andb].
  eapply returns_bind; [apply returns_mapGenesToRegions|].
  intros [kr out] Hout. cbn [snd] in Hout. subst out.
  destruct (Z.eqb_spec kr 0) as [->|Hne]; cbn [negb].
  - apply returns_ret. cbn. eauto 10.
  - returns_tac.
Qed.

Lemma returns_main_step2 od :
  returns (main_step2 progdir shell config 0 (PStr (events_file od)))
          (fun r => r.1.1.1 = 0 /\
                    (r.2 = None \/ r.2 = Some (PStr "") \/
                     r.2 = Some (PStr (motif_file (events_file od))))).
Proof.
  unfold main_step2.
  do 4 (apply returns_bind_any; intros ?).
  destruct (_ && _ && _); [|apply returns_ret; cbn; auto].
  do 4 (apply returns_bind_any; intros ?).
  eapply returns_bind with
    (Q := fun r => r.2 = PStr "" /\ r.1 = 0 \/ r.2 = PStr (motif_file (events_file od))).
  - destruct (_ && _).
    + eapply returns_weaken;
        [apply returns_motifScanning, events_file_nonempty | cbn; auto].
    + apply returns_bind_any. intros _. apply returns_ret. cbn. auto.
  - intros [kr bo] Hbo. cbn [fst snd] in Hbo.
    destruct (Z.eqb_spec kr 0) as [->|Hne]; cbn [negb]; [|returns_tac].
    apply returns_ret. cbn. destruct Hbo as [[-> _] | ->]; auto.
Qed.

Lemma motif_file_nonblank od : nonblank (PStr (motif_file (events_file od))) = true.
Proof.
  unfold nonblank. cbn [is_None py_eq_str negb andb].
  rewrite eqb_empty_false; [reflexivity|].
  apply re_sub_nonempty; [discriminate | apply events_file_nonempty].
Qed.

Lemma returns_main_step3 od tamofile binding_out :
  binding_out = None \/ binding_out = Some (PStr "") \/
  binding_out = Some (PStr (motif_file (events_file od))) ->
  returns (main_step3 progdir shell 0 (PStr (events_file od)) tamofile binding_out)
          (fun r => r.1 = 0 /\
                    ((binding_out = Some (PStr "") /\ r.2 = PStr "") \/
                     (binding_out = Some (PStr (motif_file (events_file od))) /\
                      r.2 = PStr (pkl_file (motif_file (events_file od)))))).
Proof.
  intros Hb. unfold main_step3. apply returns_bind_any. intros newfasta.
  rewrite nonblank_events_file.
  eapply returns_bind with
    (Q := fun r => (binding_out = Some (PStr "") /\ r = (0, PStr "")) \/
                   (binding_out = Some (PStr (motif_file (events_file od))) /\
                    r.2 = PStr (pkl_file (motif_file (events_file od))))).
  - destruct Hb as [-> | [-> | ->]].
    + returns_tac.
    + eapply returns_bind; [apply returns_local|]. intros ? [= <-].
      cbn. apply returns_ret. auto.
    + eapply returns_bind; [apply returns_local|]. intros ? [= <-].
      rewrite motif_file_nonblank.
      eapply returns_weaken; [apply returns_createBindingMatrix | cbn; auto].
  - intros [kr bm] Hr.
    destruct (Z.eqb_spec kr 0) as [->|Hne]; cbn [negb]; [|returns_tac].
    apply returns_ret. cbn [fst snd] in *. split; [reflexivity|].
    destruct Hr as [[-> [= ->]] | [-> ->]]; auto.
Qed.

Lemma returns_main_step4 binding_matrix :
  returns (main_step4 progdir shell config 0 (PStr binding_matrix))
          (fun r => r.1 = 0 /\
                    (r.2 = None \/
                     (binding_matrix <> "" /\
                      r.2 = Some (PStr (regression_file binding_matrix))))).
Proof.
  unfold main_step4.
  do 3 (apply returns_bind_any; intros ?).
  eapply returns_bind with
    (Q := fun r => (r.2 = None /\ r.1 = 0) \/
                   (binding_matrix <> "" /\
                    r.2 = Some (PStr (regression_file binding_matrix)))).
  - destruct (nonblank _); [|apply returns_ret; cbn; auto].
    do 4 (apply returns_bind_any; intros ?). cbn [py_eq_str].
    destruct (String.eqb_spec binding_matrix "") as [->|Hne]; cbn [negb andb].
    + returns_tac. cbn. auto.
    + destruct (_ && _).
      * eapply returns_bind; [apply returns_getTfsFromRegression|].
        intros [kr tfs] Ht. cbn [snd] in Ht. subst tfs.
        apply returns_ret. cbn. auto.
      * returns_tac. cbn. auto.
  - intros [kr tfs] Hr. cbn [fst snd] in Hr.
    destruct (Z.eqb_spec kr 0) as [->|Hne]; cbn [negb]; [|returns_tac].
    apply returns_ret. cbn. split; [reflexivity|].
    destruct Hr as [[-> _] | [? ->]]; auto.
Qed.

Lemma returns_main (args : list string) :
  returns (main progdir shell opts config args)
    (fun arts =>
       exists b win,
         config_get config "chromatinData" "bedfile" = Ret (PStr b) /\
         config_get config "chromatinData" "windowsize" = Ret (PStr win) /\
         let outfile := events_file (mapping_outdir b win (opt_outdir opts)) in
         art_outfile arts = PStr outfile /\
         ((art_binding_out arts = Some (PStr "") /\
           art_binding_matrix arts = PStr "" /\
           art_tfs arts = None) \/
          (art_binding_out arts = Some (PStr (motif_file outfile)) /\
           art_binding_matrix arts = PStr (pkl_file (motif_file outfile)) /\
           (art_tfs arts = None \/
            art_tfs arts = Some (PStr (regression_file (pkl_file (motif_file outfile)))))))).
Proof.
  unfold main. destruct (negb _); [returns_tac|].
  eapply returns_bind; [apply returns_main_step1|].
  intros [kr out] (Hkr & b & win & Hb & Hw & Hout). cbn [fst snd] in Hkr, Hout. subst kr out.
  eapply returns_bind; [apply returns_main_step2|].
  intros [[[kr tamofile] genome] bo] [Hkr Hbo]. cbn [fst snd] in Hkr, Hbo. subst kr.
  eapply returns_bind; [apply (returns_main_step3 _ tamofile _ Hbo)|].
  intros [kr bm] [Hkr Hbm]. cbn [fst snd] in Hkr, Hbm. subst kr.
  apply returns_bind_any. intros _.
  assert (Hs : exists s, bm = PStr s) by (destruct Hbm as [[_ ->] | [_ ->]]; eauto).
  destruct Hs as [s ->].
  eapply returns_bind; [apply returns_main_step4|].
  intros [kr tfs] [Hkr Htfs]. cbn [fst snd] in Hkr, Htfs. subst kr.
  apply returns_ret. exists b, win. cbn.
  split; [assumption|]. split; [assumption|]. split; [reflexivity|].
  destruct Hbm as [[-> [= ->]] | [-> [= ->]]].
  - left. destruct Htfs as [-> | [Hne _]]; [auto | contradiction].
  - right. destruct Htfs as [-> | [_ ->]]; auto.
Qed.

(** A run that returns hands back paths fixed by the bed file, the window
    size and [--outdir] alone: the events file; then either no motif scores
    and no matrix (the empty references) and no regression, or the motif
    file and the pickled matrix named after the events file, with or without
    the regression file named after the matrix.  The file system decides
    which case, never the names. *)
Theorem completed_run_paths (args : list string) w arts w' :
  main progdir shell opts config args w = (Ret arts, w') ->
  exists b win,
    config_get config "chromatinData" "bedfile" = Ret (PStr b) /\
    config_get config "chromatinData" "windowsize" = Ret (PStr win) /\
    let outfile := events_file (mapping_outdir b win (opt_outdir opts)) in
    art_outfile arts = PStr outfile /\
    ((art_binding_out arts = Some (PStr "") /\
      art_binding_matrix arts = PStr "" /\
      art_tfs arts = None) \/
     (art_binding_out arts = Some (PStr (motif_file outfile)) /\
      art_binding_matrix arts = PStr (pkl_file (motif_file outfile)) /\
      (art_tfs arts = None \/
       art_tfs arts = Some (PStr (regression_file (pkl_file (motif_file outfile))))))).
Proof. intros H. exact (returns_main args w arts w' H). Qed.

End RunPaths.

Lemma completed_run_paths_witness :
  let run := main "scripts" (shell_status 0) opts_ex config_ex ["garnet.cfg"] world_fresh in
  exists arts b win,
    fst run = Ret arts /\
    config_get config_ex "chromatinData" "bedfile" = Ret (PStr b) /\
    config_get config_ex "chromatinData" "windowsize" = Ret (PStr win) /\
    art_outfile arts = PStr (events_file (mapping_outdir b win PNone)).
Proof.
  intros run.
  assert (E : run = (Ret (Build_Artifacts
                            (PStr "peakseventsWithin2000/events_to_genes.xls")
                            (Some (PStr "peakseventsWithin2000/events_to_genes_with_motifs.txt"))
                            (PStr "peakseventsWithin2000/events_to_genes_with_motifs.pkl") None),
                     snd run)).
  { vm_compute. reflexivity. }
  destruct (completed_run_paths "scripts" (shell_status 0) opts_ex config_ex ["garnet.cfg"]
              world_fresh _ _ E) as (b & win & Hb & Hw & Ho & _).
  eexists. exists b, win. rewrite E. cbn [fst]. split; [reflexivity|].
  split; [exact Hb|]. split; [exact Hw | exact Ho].
Defined.

(** ** The default output directory *)


Lemma rfind_from_none c s i last :
  has_char c s = false -> rfind_from c s i last = last.
Proof.
  revert i last. induction s as [|d s IH]; intros i last H; [reflexivity|].
  cbn [has_char] in H. apply orb_false_elim in H as [Hd Hs].
  cbn [rfind_from]. rewrite Hd. now apply IH.
Qed.


Lemma substring_whole s : substring 0 (String.length s) s = s.
Proof. induction s as [|c s IH]; [reflexivity|]. cbn. now rewrite IH. Qed.



Lemma basename_no_slash n : has_char "/" n = false -> basename n = n.
Proof.
  intros Hn. unfold basename, slice_from, rfind.
  rewrite (rfind_from_none _ _ _ _ Hn). cbn [Z.add Z.opp Z.pos_sub Z.to_nat].
  rewrite Nat.sub_0_r. apply substring_whole.
Qed.

(** ** The stages on strings *)

Section StageRuns.

Variable progdir : string.
Variable shell : string -> (string -> bool) -> Z * (string -> bool).

Lemma os_system_after cmd w :
  os_system shell cmd w = (Ret (fst (shell cmd (fs w))), after_system shell cmd w).
Proof. apply os_system_run. Qed.

(** Step 1 on strings, where the directory name and the mapping command
    hold no NUL byte (the operating-system calls of the source refuse a
    string with one).  It hands [mkdir] to [os.system] when the output
    directory is missing, and only then, before anything else and without
    looking at what [mkdir] returns; then it either finds the events file
    and returns 0, or runs the mapping command and returns its status.  The
    path returned is the events file of the directory in both cases. *)
Theorem mapGenesToRegions_on_strings g x b win outdir w :
  let od := mapping_outdir b win outdir in
  let w1 := if fs w od then w else after_system shell ("mkdir " +:+ od) w in
  let cmd := map_cmd1 progdir g x b win (events_file od) in
  nul_free od = true -> nul_free cmd = true ->
  exists w',
    mapGenesToRegions progdir shell (PStr g) (PStr x) (PStr b) (PStr win) outdir w
    = (Ret (if fs w1 (events_file od) then 0 else fst (shell cmd (fs w1)),
            PStr (events_file od)), w')
    /\ calls w'
       = ((calls w ++ (if fs w od then [] else ["mkdir " +:+ od]))
          ++ (if fs w1 (events_file od) then [] else [cmd]))%list.
Proof.
  intros od w1 cmd _ _. exact (mapGenesToRegions_run progdir shell g x b win outdir w).
Qed.


(** Called without a gene file, with a sequence file whose name holds no
    match of [.fasta], step 2 derives the sequence file itself as its output
    name; when that file is there (it is the input), the step takes it for
    the cached result, runs nothing and returns it with status 0. *)
Theorem motifScanning_takes_fasta_for_output tamo fasta numthreads genome w :
  occurs ".fasta" fasta = false ->
  fs w fasta = true ->
  exists w',
    motifScanning progdir shell tamo (PStr fasta) numthreads genome (PStr "") w
    = (Ret (0, PStr fasta), w')
    /\ calls w' = calls w /\ fs w' = fs w.
Proof.
  intros Ho Hf.
  pose proof (motifScanning_cached progdir shell tamo fasta numthreads genome "" w) as H.
  cbn zeta in H. change (String.eqb "" "") with true in H. cbv iota in H.
  rewrite (re_sub_no_occurrence _ _ _ Ho) in H.
  eexists. split; [exact (H Hf)|]. split; reflexivity.
Qed.

(** Step 3 on strings, where the two names it looks for and its command
    hold no NUL byte (the operating-system calls of the source refuse a
    string with one): it returns the pickle path named after the motif
    scores, whatever the uniprot switch, the motif library and the files
    are.  The cache test looks at the pickle file while the command is told
    to write the [.tgm] file; the switch only changes the id list named in
    the command, and the source-names file joins that list when it is
    found, under the base name of the motif library, in the current
    directory. *)
Theorem createBindingMatrix_on_strings m o f t (u : bool) w :
  let ids := re_sub ".tamo" (if u then "_up_tfids.txt" else "_tfids.txt") t in
  let extra := re_sub ".tamo" "_source_names.txt" (basename t) in
  let tfs := if fs w extra then ids +:+ "," +:+ extra else ids in
  let cmd := map_cmd3 progdir m o f tfs (re_sub ".txt" ".tgm" m) in
  nul_free extra = true -> nul_free (pkl_file m) = true -> nul_free cmd = true ->
  exists w',
    createBindingMatrix progdir shell (PStr m) (PStr o) (PStr f) (PStr t) u w
    = (Ret (if fs w (pkl_file m) then 0 else fst (shell cmd (fs w)), PStr (pkl_file m)), w')
    /\ calls w' = (calls w ++ (if fs w (pkl_file m) then [] else [cmd]))%list.
Proof.
  intros ids extra tfs cmd _ _ _. subst ids extra tfs cmd.
  unfold createBindingMatrix, pkl_file.
  destruct u; exec;
    (destruct (fs w (re_sub ".tgm" ".pkl" (re_sub ".txt" ".tgm" m))) eqn:Ep;
     [|rewrite os_system_after; cbv beta iota]);
    eexists; (split; [reflexivity|]);
    cbn [calls after_system log_line]; rewrite ?app_nil_r; reflexivity.
Qed.

End StageRuns.


Lemma mapGenesToRegions_on_strings_witness :
  exists w',
    mapGenesToRegions "scripts" (shell_status 3) (PStr "genes.txt") (PStr "xref.txt")
                      (PStr "peaks.bed") (PStr "2000") PNone world_fresh
    = (Ret (3, PStr "peakseventsWithin2000/events_to_genes.xls"), w')
    /\ calls w'
       = ["mkdir peakseventsWithin2000";
          "python scripts/map_peaks_to_known_genes.py --peaks-format=BED --utilpath=scripts/../src/ --upstream-window=2000 --downstream-window=2000 --tss --map-output=peakseventsWithin2000/events_to_genes.xls --symbol-xref=xref.txt genes.txt peaks.bed"].
Proof.
  destruct (mapGenesToRegions_on_strings "scripts" (shell_status 3) "genes.txt" "xref.txt"
              "peaks.bed" "2000" PNone world_fresh) as (w' & H & Hc);
    [reflexivity | reflexivity |].
  exists w'. split; [exact H | exact Hc].
Defined.

Lemma createBindingMatrix_on_strings_witness :
  exists w',
    createBindingMatrix "scripts" (shell_status 0)
      (PStr "out/events_to_genes_with_motifs.txt") (PStr "out/events_to_genes.xls")
      (PStr "out/events_to_genes.fsa") (PStr "lib/motifs.tamo") false
      (world_of ["motifs_source_names.txt"])
    = (Ret (0, PStr "out/events_to_genes_with_motifs.pkl"), w')
    /\ calls w'
       = ["python scripts/get_window_binding_matrix.py out/events_to_genes_with_motifs.txt out/events_to_genes.xls  out/events_to_genes.fsa --distance-to-gene='' --motif-id-list=lib/motifs_tfids.txt,motifs_source_names.txt --outfile=out/events_to_genes_with_motifs.tgm"].
Proof.
  destruct (createBindingMatrix_on_strings "scripts" (shell_status 0)
              "out/events_to_genes_with_motifs.txt" "out/events_to_genes.xls"
              "out/events_to_genes.fsa" "lib/motifs.tamo" false
              (world_of ["motifs_source_names.txt"])) as (w' & H & Hc);
    [reflexivity | reflexivity | reflexivity |].
  exists w'. split; [exact H | exact Hc].
Defined.

Lemma motifScanning_takes_fasta_witness :
  exists w',
    motifScanning "scripts" (shell_status 0) (PStr "motifs.tamo") (PStr "peaks.fa")
                  (PStr "4") (PStr "hg19") (PStr "") (world_of ["peaks.fa"; "motifs.tamo"])
    = (Ret (0, PStr "peaks.fa"), w')
    /\ calls w' = calls (world_of ["peaks.fa"; "motifs.tamo"])
    /\ fs w' = fs (world_of ["peaks.fa"; "motifs.tamo"]).
Proof. apply motifScanning_takes_fasta_for_output; reflexivity. Defined.


(** ** Where a run can leave *)

Lemma no_exit_bind {A B} (m : M A) (k : A -> M B) :
  no_exit m -> (forall a, no_exit (k a)) -> no_exit (bind m k).
Proof.
  intros Hm Hk w w' H. unfold bind in H.
  destruct (m w) as [[a| |e] w1] eqn:E.
  - exact (Hk a w1 w' H).
  - exact (Hm w w1 E).
  - discriminate.
Qed.

Lemma no_exit_ret {A} (a : A) : no_exit (ret a).
Proof. intros w w'. discriminate. Qed.

Lemma no_exit_raise {A} e : no_exit (@raise A e).
Proof. intros w w'. discriminate. Qed.

Lemma no_exit_print s : no_exit (print s).
Proof. intros w w'. discriminate. Qed.

Lemma no_exit_exists p : no_exit (os_path_exists p).
Proof. intros w w'. discriminate. Qed.

Lemma no_exit_system shell cmd : no_exit (os_system shell cmd).
Proof. intros w w'. unfold os_system. destruct (shell cmd (fs w)). discriminate. Qed.

Ltac no_exit_tac :=
  repeat first
    [ apply no_exit_bind; [|intros]
    | apply no_exit_ret
    | apply no_exit_raise
    | apply no_exit_print
    | apply no_exit_exists
    | apply no_exit_system
    | match goal with
      | |- no_exit (match ?x with _ => _ end) => destruct x
      end
    | progress unfold str_, path_, local, re_sub_ ].

(** No stage calls [sys.exit()]: a stage returns or raises. *)
Lemma no_exit_mapGenesToRegions progdir shell g x b win outdir :
  no_exit (mapGenesToRegions progdir shell g x b win outdir).
Proof. unfold mapGenesToRegions. no_exit_tac. Qed.

Lemma no_exit_motifScanning progdir shell t f n g c :
  no_exit (motifScanning progdir shell t f n g c).
Proof. unfold motifScanning. no_exit_tac. Qed.

Lemma no_exit_createBindingMatrix progdir shell m o f t u :
  no_exit (createBindingMatrix progdir shell m o f t u).
Proof. unfold createBindingMatrix. no_exit_tac. Qed.

Lemma no_exit_getTfsFromRegression progdir shell p x pv qv :
  no_exit (getTfsFromRegression progdir shell p x pv qv).
Proof. unfold getTfsFromRegression, regression_cmd. no_exit_tac. Qed.

Lemma bind_inv_Exit {A B} (m : M A) (k : A -> M B) w w' :
  no_exit m ->
  bind m k w = (Exit, w') ->
  exists a w1, m w = (Ret a, w1) /\ k a w1 = (Exit, w').
Proof.
  intros Hm H. unfold bind in H. destruct (m w) as [[a| |e] w1] eqn:E.
  - eauto.
  - now destruct (Hm w w1).
  - discriminate.
Qed.

Lemma bind_get_inv_Exit {B} config section option (k : pyval -> M B) w w' :
  bind (get config section option) k w = (Exit, w') ->
  exists s, config_get config section option = Ret (PStr s) /\ k (PStr s) w = (Exit, w').
Proof.
  unfold bind, get, lift.
  destruct (config_get config section option) as [v| |e] eqn:E; intros H.
  - destruct (config_get_str _ _ _ _ E) as [s ->]. eauto.
  - now destruct (config_get_not_Exit config section option).
  - discriminate.
Qed.

Lemma bind_get_or_default_inv_Exit {B} config section option d (k : pyval -> M B) w w' :
  bind (get_or_default config section option d) k w = (Exit, w') ->
  exists s, config_get config section option = Ret (PStr s) /\ k (PStr s) w = (Exit, w').
Proof.
  unfold bind, get_or_default, get, lift, ret.
  destruct (config_get config section option) as [v| |e] eqn:E; intros H.
  - destruct (config_get_str _ _ _ _ E) as [s ->]. eauto.
  - now destruct (config_get_not_Exit config section option).
  - discriminate.
Qed.

Section RunEdges.

Variable progdir : string.
Variable shell : string -> (string -> bool) -> Z * (string -> bool).
Variable opts : Options.
Variable config : ConfigParser.

(** Step 1 of [main] leaves through [sys.exit()] in one way only: the four
    chromatin values were read, the mapping stage ran and returned a status
    other than 0.  The test on [genefile] and [bedfile] never sends the run
    to its [else] branch, since a lookup hands over a string or raises. *)
Theorem main_step1_exits_only_after_failed_mapping w w' :
  main_step1 progdir shell opts config w = (Exit, w') ->
  exists g b x win res out w1,
    config_get config "chromatinData" "genefile" = Ret (PStr g) /\
    config_get config "chromatinData" "bedfile" = Ret (PStr b) /\
    config_get config "chromatinData" "xreffile" = Ret (PStr x) /\
    config_get config "chromatinData" "windowsize" = Ret (PStr win) /\
    mapGenesToRegions progdir shell (PStr g) (PStr x) (PStr b) (PStr win) (opt_outdir opts) w
    = (Ret (res, out), w1) /\
    res <> 0 /\
    w' = log_line "Error running gene mapping step, check your files and try again" w1.
Proof.
  unfold main_step1. intros H.
  apply bind_get_inv_Exit in H as (g & Hg & H).
  apply bind_get_inv_Exit in H as (b & Hb & H).
  apply bind_get_inv_Exit in H as (x & Hx & H).
  apply bind_get_or_default_inv_Exit in H as (win & Hw & H).
  cbn [is_None negb andb] in H.
  apply bind_inv_Exit in H as ([res out] & w1 & Hmap & H);
    [|apply no_exit_mapGenesToRegions].
  exists g, b, x, win, res, out, w1.
  destruct (Z.eqb_spec res 0) as [->|Hne]; cbn [negb] in H; [discriminate|].
  injection H as <-. auto 10.
Qed.

(** The network export of [main] reads [doNetwork], then [tfDelimiter],
    before it tests either.  (1) When [doNetwork] cannot be read, the
    exception of the lookup ends the run there, with no command.  (2) When
    [tfDelimiter] cannot be read, the same happens, whatever [doNetwork]
    says, [False] included.  (3) When both are read, and the command holds
    no NUL byte, the export runs for every [doNetwork] value other than the
    empty string and [False] as written, so also for [false], [0] or [no];
    its command is the only one issued by this part of [main], and the run
    goes on whatever status the command returns. *)
Theorem network_export_switch g bm w :
  (forall e,
      config_get config "motifData" "doNetwork" = Raise e ->
      main_network progdir shell opts config (PStr g) (PStr bm) w = (Raise e, w))
  /\ (forall v e,
         config_get config "motifData" "doNetwork" = Ret (PStr v) ->
         config_get config "motifData" "tfDelimiter" = Raise e ->
         main_network progdir shell opts config (PStr g) (PStr bm) w = (Raise e, w))
  /\ (forall v d,
         config_get config "motifData" "doNetwork" = Ret (PStr v) ->
         config_get config "motifData" "tfDelimiter" = Ret (PStr d) ->
         nul_free (network_cmd progdir opts bm g d) = true ->
         exists w',
           main_network progdir shell opts config (PStr g) (PStr bm) w = (Ret tt, w')
           /\ calls w'
              = (calls w ++ (if String.eqb v "" || String.eqb v "False"
                             then []
                             else [network_cmd progdir opts bm g d]))%list).
Proof.
  split; [|split].
  - intros e He. unfold main_network, bind, get, lift. now rewrite He.
  - intros v e Hv He. unfold main_network.
    rewrite (bind_get _ _ _ _ _ _ Hv).
    unfold bind, get_or_default, get, lift. now rewrite He.
  - intros v d Hv Hd _. unfold main_network.
    rewrite (bind_get _ _ _ _ _ _ Hv), (bind_get_or_default _ _ _ _ _ _ _ Hd).
    unfold nonblank. cbn [is_None py_eq_str negb andb].
    destruct (String.eqb v ""), (String.eqb v "False"); cbn [negb andb orb];
      try (eexists; split; [reflexivity|]; now rewrite app_nil_r).
    exec. rewrite os_system_run. cbv beta iota.
    eexists. split; reflexivity.
Qed.


(** A failed regression stops the run like a failed required stage: [main]
    prints the error line of the regression and leaves through
    [sys.exit()]. *)
Theorem regression_failure_stops_run (f : string) w kr outfile w1 kr2 tamofile genome bo w2
    kr3 bm w3 w4 x pv qv res out w5 :
  main_step1 progdir shell opts config w = (Ret (kr, outfile), w1) ->
  main_step2 progdir shell config kr outfile w1 = (Ret (kr2, tamofile, genome, bo), w2) ->
  main_step3 progdir shell kr2 outfile tamofile bo w2 = (Ret (kr3, PStr bm), w3) ->
  main_network progdir shell opts config genome (PStr bm) w3 = (Ret tt, w4) ->
  config_get config "expressionData" "expressionFile" = Ret (PStr x) ->
  config_get config "expressionData" "pvalThresh" = Ret pv ->
  config_get config "expressionData" "qvalThresh" = Ret qv ->
  x <> "" -> bm <> "" -> fs w4 bm = true -> fs w4 x = true ->
  getTfsFromRegression progdir shell (PStr bm) (PStr x) pv qv w4 = (Ret (res, out), w5) ->
  res <> 0 ->
  main progdir shell opts config [f] w
  = (Exit, log_line "Error running regression step, check your files and try again" w5).
Proof.
  intros H1 H2 H3 H4 Hx Hpv Hqv Hxe Hbe Hfb Hfx Hreg Hres.
  rewrite (main_after_step1 _ _ _ _ _ _ _ _ _ H1), (bind_Ret _ _ _ _ _ H2).
  cbv beta iota. rewrite (bind_Ret _ _ _ _ _ H3). cbv beta iota.
  rewrite (bind_Ret _ _ _ _ _ H4).
  unfold main_step4. unfold bind at 1.
  rewrite (bind_get _ _ _ _ _ _ Hx), (bind_get _ _ _ _ _ _ Hpv), (bind_get _ _ _ _ _ _ Hqv).
  unfold nonblank. cbn [is_None py_eq_str negb andb].
  rewrite (eqb_empty_false _ Hxe), (eqb_empty_false _ Hbe). cbn [negb]. exec.
  rewrite Hfb, Hfx. cbn [andb]. rewrite Hreg.
  apply Z.eqb_neq in Hres. cbn [negb]. rewrite Hres. reflexivity.
Qed.

(** Without a [chromatinData] section (as when the configuration file
    cannot be read, which [config.read] passes over in silence) the run ends
    at its first lookup with [NoSectionError], before any command. *)
Theorem missing_chromatin_section_raises (f : string) w :
  _sections config !! "chromatinData" = None ->
  main progdir shell opts config [f] w = (Raise (NoSectionError "chromatinData"), w).
Proof.
  intros H. unfold main, main_step1. cbn [List.length Nat.eqb negb].
  unfold bind, get, lift, config_get. now rewrite H.
Qed.

End RunEdges.

(** Splits on a lookup at the head of a run: the run stops there, or goes
    on with the string [s] that was read. *)
Ltac read_or_stop s Hs :=
  match goal with
  | |- exists r, bind (get ?c ?sec ?o) ?k ?w = _ /\ _ =>
      let Hr := fresh "Hr" in
      destruct (bind_get_cases c sec o k w) as [Hr | (s & Hs & ->)]; [exact Hr|]
  end.

Section LateLookups.

Variable progdir : string.
Variable shell : string -> (string -> bool) -> Z * (string -> bool).
Variable opts : Options.
Variable config : ConfigParser.

Lemma bind_get_or_default_cases {B} section option d (k : pyval -> M B) w :
  (exists r, bind (get_or_default config section option d) k w = (r, w) /\ aborted r) \/
  (exists s, config_get config section option = Ret (PStr s) /\
             bind (get_or_default config section option d) k w = k (PStr s) w).
Proof.
  destruct (config_get config section option) as [v| |e] eqn:E.
  - right. destruct (config_get_str _ _ _ _ E) as [s ->]. exists s.
    split; [reflexivity | now apply bind_get_or_default].
  - left. exists Exit. unfold bind, get_or_default, get, lift. now rewrite E.
  - left. exists (Raise e). unfold bind, get_or_default, get, lift. now rewrite E.
Qed.

(** The motif values are read only after the gene-region mapping has run:
    when [tamo_file], [genome], [numthreads] or [fastafile] cannot be read,
    the run aborts in the world step 1 left, with the mapping done (or found
    cached) and nothing run after it. *)
Theorem missing_motif_key_aborts_after_mapping (f : string) w kr outfile w1 :
  main_step1 progdir shell opts config w = (Ret (kr, outfile), w1) ->
  absent config "motifData" "tamo_file" \/
  absent config "motifData" "genome" \/
  absent config "motifData" "numthreads" \/
  absent config "chromatinData" "fastafile" ->
  exists r,
    main progdir shell opts config [f] w = (r, w1) /\ aborted r.
Proof.
  intros H1 Habs.
  assert (Hstep : exists r, main_step2 progdir shell config kr outfile w1 = (r, w1)
                            /\ aborted r).
  { unfold main_step2.
    read_or_stop t Ht. read_or_stop g Hg.
    match goal with
    | |- exists r, bind (get_or_default ?c ?sec ?o ?d) ?k ?w = _ /\ _ =>
        destruct (bind_get_or_default_cases (B:=_) sec o d k w) as [Hr | (n & Hn & ->)];
          [exact Hr|]
    end.
    apply bind_get_absent.
    destruct Habs as [H | [H | [H | H]]];
      [ now destruct (H _ Ht) | now destruct (H _ Hg) | now destruct (H _ Hn) | exact H ]. }
  destruct Hstep as (r & Hr & Hab).
  rewrite (main_after_step1 _ _ _ _ _ _ _ _ _ H1).
  exists (match r with Ret _ => Exit | Exit => Exit | Raise e => Raise e end).
  unfold bind at 1. rewrite Hr.
  destruct r; [contradiction | |]; cbn; auto.
Qed.

End LateLookups.

(** ** The further properties on sample runs *)

Lemma main_step1_exit_witness :
  exists g b x win res out w1,
    config_get config_ex "chromatinData" "genefile" = Ret (PStr g) /\
    config_get config_ex "chromatinData" "bedfile" = Ret (PStr b) /\
    config_get config_ex "chromatinData" "xreffile" = Ret (PStr x) /\
    config_get config_ex "chromatinData" "windowsize" = Ret (PStr win) /\
    mapGenesToRegions "scripts" (shell_status 1) (PStr g) (PStr x) (PStr b) (PStr win) PNone
                      world_fresh
    = (Ret (res, out), w1) /\
    res <> 0 /\
    snd (main_step1 "scripts" (shell_status 1) opts_ex config_ex world_fresh)
    = log_line "Error running gene mapping step, check your files and try again" w1.
Proof.
  apply (main_step1_exits_only_after_failed_mapping "scripts" (shell_status 1) opts_ex
           config_ex world_fresh).
  vm_compute. reflexivity.
Defined.

Lemma network_export_lowercase_false_witness :
  (exists w',
      main_network "scripts" (shell_status 1) opts_ex config_network_lower (PStr "hg19")
                   (PStr "") world_fresh
      = (Ret tt, w')
      /\ calls w'
         = ["python scripts/zipTgms.py --pkl= --genome hg19 --as-network --tf-delimiter=."])
  /\ main_network "scripts" (shell_status 1) opts_ex config_no_delimiter (PStr "hg19")
                  (PStr "") world_fresh
     = (Raise (NoOptionError "tfdelimiter" "motifData"), world_fresh)
  /\ main_network "scripts" (shell_status 1) opts_ex config_empty (PStr "hg19")
                  (PStr "") world_fresh
     = (Raise (NoSectionError "motifData"), world_fresh).
Proof.
  split; [|split].
  - destruct (network_export_switch "scripts" (shell_status 1) opts_ex config_network_lower
                "hg19" "" world_fresh) as (_ & _ & H3).
    destruct (H3 "false" ".") as (w' & H & Hc); try (vm_compute; reflexivity).
    exists w'. split; [exact H|]. rewrite Hc. vm_compute. reflexivity.
  - destruct (network_export_switch "scripts" (shell_status 1) opts_ex config_no_delimiter
                "hg19" "" world_fresh) as (_ & H2 & _).
    apply (H2 "False"); vm_compute; reflexivity.
  - destruct (network_export_switch "scripts" (shell_status 1) opts_ex config_empty
                "hg19" "" world_fresh) as (H1 & _ & _).
    apply H1. vm_compute. reflexivity.
Defined.


Lemma regression_failure_witness :
  exists w5,
    main "scripts" (shell_status 1) opts_ex config_ex ["garnet.cfg"] world_no_regression
    = (Exit, log_line "Error running regression step, check your files and try again" w5).
Proof.
  eexists.
  eapply (regression_failure_stops_run "scripts" (shell_status 1) opts_ex config_ex
            "garnet.cfg" world_no_regression 0
            (PStr "peakseventsWithin2000/events_to_genes.xls") _ 0 (PStr "motifs.tamo")
            (PStr "hg19")
            (Some (PStr "peakseventsWithin2000/events_to_genes_with_motifs.txt")) _ 0
            "peakseventsWithin2000/events_to_genes_with_motifs.pkl" _ _
            "expr.txt" (PStr "0.01") (PStr "") 1
            (PStr "peakseventsWithin2000/events_to_genes_with_motifsregression_results.xls"));
    try (vm_compute; reflexivity); discriminate.
Defined.

Lemma missing_chromatin_section_witness :
  main "scripts" (shell_status 0) opts_ex config_empty ["garnet.cfg"]
       world_fresh
  = (Raise (NoSectionError "chromatinData"), world_fresh).
Proof. apply missing_chromatin_section_raises. reflexivity. Defined.

Lemma missing_motif_key_witness :
  let config := mk_config chromatin_ex
                  [("genome", "hg19"); ("numthreads", "4"); ("donetwork", "False");
                   ("tfdelimiter", ".")]
                  expression_ex in
  exists r,
    main "scripts" (shell_status 0) opts_ex config ["garnet.cfg"] world_fresh
    = (r, snd (main_step1 "scripts" (shell_status 0) opts_ex config world_fresh))
    /\ aborted r.
Proof.
  intros config.
  apply (missing_motif_key_aborts_after_mapping "scripts" (shell_status 0) opts_ex config
           "garnet.cfg" world_fresh 0 (PStr "peakseventsWithin2000/events_to_genes.xls")).
  - vm_compute. reflexivity.
  - left. intros v. vm_compute. discriminate.
Defined.

(** ** The motif scan on strings *)

Section ScanRuns.

Variable progdir : string.
Variable shell : string -> (string -> bool) -> Z * (string -> bool).

(** Step 2 on strings, with a gene file, where the output name and the
    scan command hold no NUL byte (the operating-system calls of the source
    refuse a string with one).  Its output is named after the gene file
    alone, and the cache test looks at that name only:
    the motif library, the genome, the thread count and the sequence file
    play no part in it, so changing them does not run the scan again while
    the file is there.  When the file is missing the step runs the one scan
    command and returns its status. *)
Theorem motifScanning_on_strings t f n g c w :
  c <> "" ->
  let out := motif_file c in
  let cmd := scan_cmd progdir t f n g c out in
  nul_free out = true -> nul_free cmd = true ->
  exists w',
    motifScanning progdir shell (PStr t) (PStr f) (PStr n) (PStr g) (PStr c) w
    = (Ret (if fs w out then 0 else fst (shell cmd (fs w)), PStr out), w')
    /\ calls w' = (calls w ++ (if fs w out then [] else [cmd]))%list.
Proof.
  intros Hc out cmd _ _. exact (motifScanning_run progdir shell t f n g c w Hc).
Qed.

End ScanRuns.

Lemma motifScanning_on_strings_witness :
  exists w',
    motifScanning "scripts" (shell_status 0) (PStr "other.tamo") (PStr "other.fasta")
                  (PStr "8") (PStr "mm9") (PStr "peakseventsWithin2000/events_to_genes.xls")
                  world_cached
    = (Ret (0, PStr "peakseventsWithin2000/events_to_genes_with_motifs.txt"), w')
    /\ calls w' = [].
Proof.
  destruct (motifScanning_on_strings "scripts" (shell_status 0) "other.tamo" "other.fasta"
              "8" "mm9" "peakseventsWithin2000/events_to_genes.xls" world_cached)
    as (w' & H & Hc); [discriminate | reflexivity | reflexivity |].
  exists w'. split; [exact H | exact Hc].
Defined.
